(** * WhatsAppBot: connection supervision and message dispatch

    A shallow embedding of [WhatsAppBot] (the Baileys based bot): the
    helper [extractUserId], the [connection.update], [messages.update] and
    [messages.upsert] handlers registered by [start], [processMessage],
    [handleError], [clearSession], [logout] and [start] itself.

    Conventions of the embedding.
    - A JavaScript string is the list of its UTF-16 code units.
    - [this] is the record [Bot]; the world outside it (the collaborators'
      call log, pending timers, the credentials folder, the status store)
      is the record [World].
    - A collaborator (logger, sessionManager, humanModeManager, aiService,
      the socket, ...) is not part of the bot: a call to it is recorded in
      the world's trace and answered by an oracle [Env] that sees the
      calls made so far, so every theorem holds for every behaviour of the
      collaborators, throwing included.
    - [await] is sequencing: one handler run is modelled from its first to
      its last statement; interleaving of several handler runs is not. *)

From Stdlib Require Import ZArith NArith Ascii String List Bool Lia.
From stdpp Require Import base option list gmap.

Open Scope Z_scope.

(** ** JavaScript strings *)

Module Js.

(** A string: its UTF-16 code units. *)
Abbreviation str := (list N).

(** An ASCII literal of the source as a list of code units. *)
Definition lit (s : string) : str :=
  List.map N_of_ascii (list_ascii_of_string s).

(** A value that holds a string, [null] or [undefined]. *)
Inductive ostr : Type :=
| undefined
| null
| val (s : str).

(** Truthiness of such a value: [null], [undefined] and [''] are falsy. *)
Definition truthy (v : ostr) : bool :=
  match v with
  | val (_ :: _) => true
  | _ => false
  end.

(** [a || b] where [b] is a string. *)
Definition or_else (a : ostr) (b : str) : str :=
  match a with
  | val (c :: s) => c :: s
  | _ => b
  end.

(** [a || b] where both may be absent. *)
Definition or_ostr (a b : ostr) : ostr :=
  if truthy a then a else b.

(** [s === '']. *)
Definition is_empty (s : str) : bool :=
  match s with [] => true | _ :: _ => false end.

(** [s] begins with [p] (the test behind [indexOf] at one position). *)
Fixpoint startsWith (p s : str) : bool :=
  match p, s with
  | [], _ => true
  | _ :: _, [] => false
  | a :: p', b :: s' => N.eqb a b && startsWith p' s'
  end.

(** [s.indexOf(p)]: the least position at which [p] occurs. *)
Fixpoint indexOf (p s : str) : option nat :=
  if startsWith p s then Some 0%nat
  else match s with
       | [] => None
       | _ :: s' => option_map S (indexOf p s')
       end.

(** [s.includes(p)]. *)
Definition includes (p s : str) : bool :=
  match indexOf p s with Some _ => true | None => false end.

(** [s.endsWith(p)]. *)
Definition endsWith (p s : str) : bool :=
  startsWith (rev p) (rev s).

(** [s.replace(p, r)] for a string pattern [p]: only the first occurrence
    is replaced.  The replacement is inserted as it is; the source passes
    [''] everywhere, so the [$] patterns of a replacement never matter. *)
Definition replace (p r s : str) : str :=
  match indexOf p s with
  | None => s
  | Some i => firstn i s ++ r ++ skipn (i + List.length p) s
  end.

(** White space and line terminators, as [trim] sees them. *)
Definition isWhiteSpace (c : N) : bool :=
  (List.existsb (N.eqb c)
     [9; 10; 11; 12; 13; 32; 160; 5760; 8232; 8233; 8239; 8287; 12288; 65279]
   || (N.leb 8192 c && N.leb c 8202))%N.

Fixpoint trimStart (s : str) : str :=
  match s with
  | c :: s' => if isWhiteSpace c then trimStart s' else s
  | [] => []
  end.

Definition trimEnd (s : str) : str := rev (trimStart (rev s)).

(** [s.trim()]. *)
Definition trim (s : str) : str := trimEnd (trimStart s).

End Js.

Import Js.

(** ** extractUserId *)

Definition suffix_direct : str := lit "@s.whatsapp.net".
Definition suffix_lid : str := lit "@lid".
Definition suffix_group : str := lit "@g.us".

(** [extractUserId(remoteJid)]. *)
Definition extractUserId (remoteJid : ostr) : str :=
  match remoteJid with
  | val (c :: s) =>
      replace suffix_group []
        (replace suffix_lid []
           (replace suffix_direct [] (c :: s)))
  | _ => []
  end.

(** ** Values exchanged with the collaborators *)

(** An [Error] object; the handlers only ever read its [message], a
    string. *)
Record Error : Type := mkError { message : str }.

(** What a [throw] carries, or what a promise is rejected with: an [Error],
    or a value that is none (a string, a plain object, ...), whose [message]
    is [undefined].  A rejection with [null] or [undefined] itself is not
    modelled. *)
Variant Thrown : Type :=
| raised (error : Error)
| a_value.

Coercion raised : Error >-> Thrown.

(** The outcome of a call: a value, or an exception. *)
Inductive Res (A : Type) : Type :=
| Ok (a : A)
| Throw (e : Thrown).
Arguments Ok {A} a.
Arguments Throw {A} e.

(** What the engine raises when a property of [undefined] or [null] is
    read. *)
Definition TypeError (what property : string) : Error :=
  mkError (lit "Cannot read properties of " ++ lit what ++ lit " (reading '"
             ++ lit property ++ lit "')").

Variant Role : Type := system | user | assistant.

(** One entry of a conversation: [{ role, content }]. *)
Record ChatMessage : Type := mkChat { role : Role; content : str }.

(** What [sessionManager.getSession] resolves to; only [messages] is read. *)
Record Session : Type := mkSession { messages : list ChatMessage }.

(** First argument of [logger.log]. *)
Variant LogKind : Type := cliente | bot | SYSTEM | ERROR.

(** Delivery status written by [logger.updateMessageStatus]. *)
Variant Status : Type := sent | delivered | read.

(** The callback handed to [setTimeout]: always [() => this.start()]. *)
Variant Callback : Type := cb_start.

(** Lines written with [console.log] / [console.error]. *)
Variant ConsoleLine : Type :=
| AlreadyReconnecting | Starting | AuthFolderCreated | UsingVersion
| ScanQR | VisitQR
| ConnectionClosed (statusCode : option Z) (shouldReconnect : bool)
| MaxAttemptsReached
| ErrorDetected (statusCode : option Z) (attempts max : Z)
| Connected
| UpdateReceived | ReadDetected | DeliveredDetected | SentDetected
| StatusUpdated (messageId : str) (status : Status) (userId : str)
| ErrorUpdatingStatus (e : Thrown)
| MessageReceived | DebugKey | DebugPushName | DebugVerifiedBizName
| IgnoringOwnMessage | IgnoredNoText
| NoGroupMetadata (e : Thrown)
| ErrorStartingBot (e : Thrown)
| RetryingIn5s (attempts max : Z)
| ErrorProcessingMessage (e : Thrown)
| ErrorSendingErrorMessage (e : Thrown)
| ClosingBot | SessionRemoved | NoPreviousSession
| ClosingSession | ErrorOnLogout (e : Thrown)
| ErrorClosingSession (e : Thrown).

(** The names under which [start] registers its handlers. *)
Variant EventName : Type :=
| creds_update | connection_update | messages_update | messages_upsert.

(** Every call that leaves the bot, indexed by the type of its result. *)
Inductive Call : Type -> Type :=
(* console, qrcode-terminal *)
| Console (l : ConsoleLine) : Call unit
| QrGenerate (qr : str) : Call unit
(* timers, file system, configuration *)
| SetTimeout (cb : Callback) (ms : Z) : Call unit
| FsMkdir : Call unit
| FsRm : Call unit
| ValidateApiKey : Call unit
(* baileys *)
| UseMultiFileAuthState : Call unit
| FetchLatestBaileysVersion : Call unit
| MakeWASocket : Call unit
| EvOn (name : EventName) : Call unit
| SendMessage (to : ostr) (text : str) : Call ostr
| GroupMetadata (jid : str) : Call ostr
| SockLogout : Call unit
| SockEnd : Call unit
(* logger *)
| LoggerLog (kind : LogKind) (text : str) (userId name : option str)
    (isGroup : option bool) (messageId : ostr) : Call unit
| UpdateMessageStatus (messageId : str) (status : Status) : Call unit
(* humanModeManager *)
| IsHumanMode (userId : str) : Call bool
| IsSupportMode (userId : str) : Call bool
| SetMode (userId mode : str) : Call unit
(* systemConfigService *)
| IsGroupsAIEnabled : Call bool
| IsIndividualAIEnabled : Call bool
(* followUpService *)
| HasActiveFollowUp (userId : str) : Call bool
| CancelFollowUp (userId reason : str) : Call unit
| AnalyzeUserResponse (userId text : str) (history : list ChatMessage) : Call unit
| StartFollowUpTimer : Call unit
(* sessionManager *)
| AddMessage (userId : str) (r : Role) (text chatId : str) : Call unit
| GetMessages (userId chatId : str) : Call (list ChatMessage)
| GetSession (userId chatId : str) : Call Session
| UpdateSessionMode (userId chatId mode : str) : Call unit
| StartCleanupTimer : Call unit
(* promptLoader, aiService *)
| GetPrompt (isGroup : bool) : Call str
| GenerateResponse (msgs : list ChatMessage) : Call str.

(** A call as an entry of the trace. *)
Definition Event : Type := sigT Call.
Definition ev {X} (c : Call X) : Event := existT X c.

(** The collaborators: the answer to a call, given the calls made so far. *)
Definition Env : Type := forall X, list Event -> Call X -> Res X.

(** ** Transport events *)

(** The events of baileys, with the fields the handlers read.  A field that
    baileys' types make mandatory ([msg.key], [update.key],
    [update.update]) is always there; an optional string is an [ostr]. *)
Module WA.

(** [msg.key]. *)
Record Key : Type := mkKey {
  fromMe : bool;
  remoteJid : ostr;
  senderPn : ostr;
  id : ostr
}.

(** [msg.message]: the two places a text can sit in;
    [extendedText] is [extendedTextMessage?.text]. *)
Record Content : Type := mkContent {
  conversation : ostr;
  extendedText : ostr
}.

(** One element of [m.messages]; [message] may be missing. *)
Record Message : Type := mkMessage {
  key : Key;
  message : option Content;
  pushName : ostr
}.

(** The argument of the [messages.upsert] handler. *)
Record Upsert : Type := mkUpsert { messages : list Message }.

(** One element of the argument of the [messages.update] handler;
    [status] is [update.update.status]. *)
Record StatusUpdate : Type := mkStatusUpdate {
  update_key : Key;
  status : option Z
}.

(** [update.connection]. *)
Variant Connection : Type := close | open | connecting.

(** The argument of the [connection.update] handler; [statusCode] is
    [lastDisconnect?.error?.output?.statusCode]. *)
Record ConnectionUpdate : Type := mkConnectionUpdate {
  connection : option Connection;
  statusCode : option Z;
  qr : ostr
}.

End WA.

(** ** The bot and the world around it *)

Variant Socket : Type := WASocket.

(** [this.connectionStatus]. *)
Variant ConnectionStatus : Type := disconnected | connecting | connected.

(** The fields of a [WhatsAppBot]. *)
Record Bot : Type := mkBot {
  sock : option Socket;
  currentQR : ostr;
  connectionStatus : ConnectionStatus;
  reconnectAttempts : Z;
  maxReconnectAttempts : Z;
  isReconnecting : bool
}.

(** [new WhatsAppBot()]. *)
Definition constructor : Bot :=
  {| sock := None; currentQR := null; connectionStatus := disconnected;
     reconnectAttempts := 0; maxReconnectAttempts := 3;
     isReconnecting := false |}.

(** The world: the bot, every call made so far (oldest first), the
    callbacks that [setTimeout] holds and that have not fired yet, whether
    the [auth_baileys] folder exists, and the logger's status store. *)
Record World : Type := mkWorld {
  this : Bot;
  trace : list Event;
  timers : list (Callback * Z);
  auth_baileys : bool;
  statuses : gmap str Status
}.

Definition with_this (f : Bot -> Bot) (w : World) : World :=
  {| this := f (this w); trace := trace w; timers := timers w;
     auth_baileys := auth_baileys w; statuses := statuses w |}.

Definition record {X} (c : Call X) (w : World) : World :=
  {| this := this w; trace := trace w ++ [ev c]; timers := timers w;
     auth_baileys := auth_baileys w; statuses := statuses w |}.

Definition with_timer (t : Callback * Z) (w : World) : World :=
  {| this := this w; trace := trace w; timers := timers w ++ [t];
     auth_baileys := auth_baileys w; statuses := statuses w |}.

Definition with_auth (b : bool) (w : World) : World :=
  {| this := this w; trace := trace w; timers := timers w;
     auth_baileys := b; statuses := statuses w |}.

Definition with_statuses (f : gmap str Status -> gmap str Status) (w : World) : World :=
  {| this := this w; trace := trace w; timers := timers w;
     auth_baileys := auth_baileys w; statuses := f (statuses w) |}.

(** ** The monad of handler bodies: state and exceptions *)

Definition M (A : Type) : Type := Env -> World -> World * Res A.

Definition ret {A} (a : A) : M A := fun _ w => (w, Ok a).

Definition bind {A B} (m : M A) (k : A -> M B) : M B :=
  fun env w =>
    match m env w with
    | (w', Ok a) => k a env w'
    | (w', Throw e) => (w', Throw e)
    end.

Definition throw {A} (e : Thrown) : M A := fun _ w => (w, Throw e).

(** [try { m } catch (e) { h e }]. *)
Definition try_catch {A} (m : M A) (h : Thrown -> M A) : M A :=
  fun env w =>
    match m env w with
    | (w', Throw e) => h e env w'
    | r => r
    end.

Declare Scope bot_scope.
Delimit Scope bot_scope with bot.
Notation "x <- m ;; k" := (bind m (fun x => k))
  (at level 100, m at next level, right associativity) : bot_scope.
Notation "m ;; k" := (bind m (fun _ => k))
  (at level 100, right associativity) : bot_scope.
Open Scope bot_scope.

(** A call whose result the bot waits for. *)
Definition call {X} (c : Call X) : M X :=
  fun env w => (record c w, env X (trace w) c).

(** A call that cannot fail, or whose promise nobody awaits: it is made,
    and the handler goes on whatever becomes of it. *)
Definition emit {X} (c : Call X) : M unit :=
  fun _ w => (record c w, Ok tt).

Definition console (l : ConsoleLine) : M unit := emit (Console l).

Definition get : M Bot := fun _ w => (w, Ok (this w)).
Definition modify (f : Bot -> Bot) : M unit := fun _ w => (with_this f w, Ok tt).

Definition set_sock (v : option Socket) (b : Bot) : Bot :=
  {| sock := v; currentQR := currentQR b; connectionStatus := connectionStatus b;
     reconnectAttempts := reconnectAttempts b;
     maxReconnectAttempts := maxReconnectAttempts b;
     isReconnecting := isReconnecting b |}.
Definition set_currentQR (v : ostr) (b : Bot) : Bot :=
  {| sock := sock b; currentQR := v; connectionStatus := connectionStatus b;
     reconnectAttempts := reconnectAttempts b;
     maxReconnectAttempts := maxReconnectAttempts b;
     isReconnecting := isReconnecting b |}.
Definition set_connectionStatus (v : ConnectionStatus) (b : Bot) : Bot :=
  {| sock := sock b; currentQR := currentQR b; connectionStatus := v;
     reconnectAttempts := reconnectAttempts b;
     maxReconnectAttempts := maxReconnectAttempts b;
     isReconnecting := isReconnecting b |}.
Definition set_reconnectAttempts (v : Z) (b : Bot) : Bot :=
  {| sock := sock b; currentQR := currentQR b; connectionStatus := connectionStatus b;
     reconnectAttempts := v;
     maxReconnectAttempts := maxReconnectAttempts b;
     isReconnecting := isReconnecting b |}.
Definition set_isReconnecting (v : bool) (b : Bot) : Bot :=
  {| sock := sock b; currentQR := currentQR b; connectionStatus := connectionStatus b;
     reconnectAttempts := reconnectAttempts b;
     maxReconnectAttempts := maxReconnectAttempts b;
     isReconnecting := v |}.

(** [setTimeout(cb, ms)]: the callback is held until it fires.  The source
    keeps no timer handle and never calls [clearTimeout]. *)
Definition setTimeout (cb : Callback) (ms : Z) : M unit :=
  fun _ w => (with_timer (cb, ms) (record (SetTimeout cb ms) w), Ok tt).

(** [fs.existsSync(authPath)]. *)
Definition fs_existsSync : M bool := fun _ w => (w, Ok (auth_baileys w)).

(** [fs.mkdirSync(authPath, { recursive: true, mode: 0o755 })]. *)
Definition fs_mkdirSync : M unit :=
  fun env w =>
    match env _ (trace w) FsMkdir with
    | Ok _ => (with_auth true (record FsMkdir w), Ok tt)
    | Throw e => (record FsMkdir w, Throw e)
    end.

(** [fsPromises.rm(authPath, { recursive: true, force: true })]. *)
Definition fs_rm : M unit :=
  fun env w =>
    match env _ (trace w) FsRm with
    | Ok _ => (with_auth false (record FsRm w), Ok tt)
    | Throw e => (record FsRm w, Throw e)
    end.

(** ** StatusTracker: the store behind [logger.updateMessageStatus] *)

(** Modelled from the spec: the rank of a status, "rank in {sent=1,
    delivered=2, read=3}"; the handler of the source only names the three
    statuses. *)
Definition rank (s : Status) : Z :=
  match s with sent => 1 | delivered => 2 | read => 3 end.

(** Modelled from the spec: [logger.updateMessageStatus] (services/logger is
    not among the sources).  "Applies the update only if rank(new) >=
    rank(stored) for that messageId; otherwise the update is discarded
    silently.  No status exists for a messageId until the first qualifying
    update arrives." *)
Definition applyStatus (messageId : str) (new : Status)
    (store : gmap str Status) : gmap str Status :=
  match store !! messageId with
  | Some stored =>
      if rank stored <=? rank new then <[messageId := new]> store else store
  | None => <[messageId := new]> store
  end.

(** [await logger.updateMessageStatus(messageId, status)]: the collaborator
    may fail; when it does not, the store is updated by [applyStatus]. *)
Definition updateMessageStatus (messageId : str) (s : Status) : M unit :=
  fun env w =>
    match env _ (trace w) (UpdateMessageStatus messageId s) with
    | Ok _ =>
        (with_statuses (applyStatus messageId s)
           (record (UpdateMessageStatus messageId s) w), Ok tt)
    | Throw e => (record (UpdateMessageStatus messageId s) w, Throw e)
    end.

(** ** Texts of the source *)

(** The control marker an AI answer carries to ask for the hand-off. *)
Definition marker : str := lit "{{ACTIVAR_SOPORTE}}".

Definition apology : str :=
  lit "Lo siento, ocurri" ++ [243%N] ++ lit " un error. Int" ++ [233%N]
    ++ lit "ntalo de nuevo.".

Definition configuration_notice : str :=
  lit "Error de configuraci" ++ [243%N]
    ++ lit "n del bot. Por favor, contacta al administrador.".

Definition autenticacion : str := lit "autenticaci" ++ [243%N] ++ lit "n".

Definition ignored_mode_note (mode userName userId : str) : str :=
  lit "Mensaje ignorado - Modo " ++ mode ++ lit " activo para " ++ userName
    ++ lit " (" ++ userId ++ lit ")".

Definition ignored_group_note (groupName : str) : str :=
  lit "Mensaje de grupo ignorado - IA en grupos desactivada (" ++ groupName
    ++ lit ")".

Definition ignored_individual_note (userName : str) : str :=
  lit "Mensaje individual ignorado - IA individual desactivada (" ++ userName
    ++ lit ")".

Definition support_activated_note (userId : str) : str :=
  lit "Modo SOPORTE activado autom" ++ [225%N] ++ lit "ticamente para "
    ++ userId.

Definition client_replied : str := lit "Cliente respondi" ++ [243%N].

(** ** clearSession, stop *)

(** [clearSession()]: removal of the credentials folder; a failure of the
    removal is caught here and only written to the console. *)
Definition clearSession : M unit :=
  try_catch (fs_rm ;; console SessionRemoved)
            (fun _ => console NoPreviousSession).

(** [stop()]. *)
Definition stop : M unit :=
  console ClosingBot ;;
  b <- get ;;
  match sock b with
  | Some _ => call SockEnd
  | None => ret tt
  end.

(** ** The [connection.update] handler *)

(** [statusCode === n] for a status code that may be [undefined]. *)
Definition code_is (statusCode : option Z) (n : Z) : bool :=
  match statusCode with
  | Some c => c =? n
  | None => false
  end.

(** The handler registered on ['connection.update'].
    [loggedOut] is [DisconnectReason.loggedOut], a constant of baileys.
    [this.clearSession()] is not awaited by the source; here the removal
    it starts is completed on the spot. *)
Definition on_connection_update (loggedOut : Z) (update : WA.ConnectionUpdate)
    : M unit :=
  (if truthy (WA.qr update) then
     console ScanQR ;;
     console VisitQR ;;
     modify (set_currentQR (WA.qr update)) ;;
     modify (set_connectionStatus connecting) ;;
     emit (QrGenerate (or_else (WA.qr update) []))
   else ret tt) ;;
  match WA.connection update with
  | Some WA.close =>
      modify (set_connectionStatus disconnected) ;;
      let statusCode := WA.statusCode update in
      let shouldReconnect := negb (code_is statusCode loggedOut) in
      console (ConnectionClosed statusCode shouldReconnect) ;;
      if code_is statusCode 405 || code_is statusCode 401
         || code_is statusCode 403 then
        modify (fun b => set_reconnectAttempts (reconnectAttempts b + 1) b) ;;
        b <- get ;;
        if maxReconnectAttempts b <? reconnectAttempts b then
          console MaxAttemptsReached ;;
          modify (set_isReconnecting false)
        else
          console (ErrorDetected statusCode (reconnectAttempts b)
                     (maxReconnectAttempts b)) ;;
          clearSession ;;
          modify (set_isReconnecting false) ;;
          setTimeout cb_start 5000
      else if shouldReconnect && negb (code_is statusCode loggedOut) then
        modify (set_reconnectAttempts 0) ;;
        modify (set_isReconnecting false) ;;
        setTimeout cb_start 5000
      else
        modify (set_isReconnecting false)
  | Some WA.open =>
      console Connected ;;
      modify (set_currentQR null) ;;
      modify (set_connectionStatus connected) ;;
      modify (set_reconnectAttempts 0) ;;
      modify (set_isReconnecting false) ;;
      emit (LoggerLog SYSTEM (lit "Bot iniciado correctamente con Baileys")
              None None None undefined) ;;
      call StartCleanupTimer ;;
      call StartFollowUpTimer
  | _ => ret tt
  end.

(** ** The [messages.update] handler *)

(** One turn of the loop over [updates]. *)
Definition on_status_update (update : WA.StatusUpdate) : M unit :=
  try_catch
    (let messageId := WA.id (WA.update_key update) in
     let userId := extractUserId (WA.remoteJid (WA.update_key update)) in
     console UpdateReceived ;;
     st <- (if code_is (WA.status update) 4 then
              console ReadDetected ;; ret (Some read)
            else if code_is (WA.status update) 2 then
              console DeliveredDetected ;; ret (Some delivered)
            else if code_is (WA.status update) 1 then
              console SentDetected ;; ret (Some sent)
            else ret None) ;;
     match st, messageId with
     | Some s, val (c :: i) =>
         updateMessageStatus (c :: i) s ;;
         console (StatusUpdated (c :: i) s userId)
     | _, _ => ret tt
     end)
    (fun error => console (ErrorUpdatingStatus error)).

(** The handler registered on ['messages.update']. *)
Fixpoint on_messages_update (updates : list WA.StatusUpdate) : M unit :=
  match updates with
  | [] => ret tt
  | update :: rest => on_status_update update ;; on_messages_update rest
  end.

(** ** processMessage, handleError and the [messages.upsert] handler *)

(** [processMessage(userId, userMessage, chatId)]. *)
Definition processMessage (userId userMessage chatId : str) : M str :=
  call (AddMessage userId user userMessage chatId) ;;
  let isGroup := endsWith suffix_group chatId in
  systemPrompt <- call (GetPrompt isGroup) ;;
  history <- call (GetMessages userId chatId) ;;
  let msgs := mkChat system systemPrompt :: history in
  aiResponse <- call (GenerateResponse msgs) ;;
  if includes marker aiResponse then
    let cleanResponse := trim (replace marker [] aiResponse) in
    call (SetMode userId (lit "support")) ;;
    call (UpdateSessionMode userId chatId (lit "support")) ;;
    call (AddMessage userId assistant cleanResponse chatId) ;;
    call (LoggerLog SYSTEM (support_activated_note userId)
            None None None undefined) ;;
    ret cleanResponse
  else
    call (AddMessage userId assistant aiResponse chatId) ;;
    ret aiResponse.

(** The text [handleError] answers with, for an error whose [message] is
    a string. *)
Definition errorMessage (error : Error) : str :=
  if includes autenticacion (message error)
     || includes (lit "API key") (message error)
  then configuration_notice
  else apology.

(** [handleError(error, message)]; [message] is [m.messages[0]], which is
    [undefined] when the event carries no message.  The text of the answer
    is chosen outside the [try] block, by [error.message.includes(...)]:
    when what was caught has no [message], that is a [TypeError] and
    nothing is sent.  [logger.log] is not awaited here. *)
Definition handleError (error : Thrown) (msg : option WA.Message) : M unit :=
  console (ErrorProcessingMessage error) ;;
  match msg with
  | None => throw (TypeError "undefined" "key")
  | Some msg =>
      let from := WA.remoteJid (WA.key msg) in
      let userId := extractUserId from in
      match error with
      | a_value => throw (TypeError "undefined" "includes")
      | raised error =>
          try_catch
            (call (SendMessage from (errorMessage error)) ;;
             emit (LoggerLog ERROR (message error) (Some userId) None None
                     undefined))
            (fun sendError => console (ErrorSendingErrorMessage sendError))
      end
  end.

(** From the follow-up check to the log of the reply: the end of the
    [try] block of the handler. *)
Definition reply (userId userName : str) (groupName : option str)
    (isGroup : bool) (conversation from : str) : M unit :=
  active <- call (HasActiveFollowUp userId) ;;
  (if active : bool then call (CancelFollowUp userId client_replied)
   else ret tt) ;;
  response <- processMessage userId conversation from ;;
  session <- call (GetSession userId from) ;;
  call (AnalyzeUserResponse userId conversation (messages session)) ;;
  messageId <- call (SendMessage (val from) response) ;;
  let displayName := if isGroup then groupName else Some userName in
  call (LoggerLog bot response (Some userId) displayName (Some isGroup)
          messageId).

(** The text of a message:
    [conversation || extendedTextMessage?.text || '']. *)
Definition text_of (content : WA.Content) : str :=
  or_else (or_ostr (WA.conversation content) (WA.extendedText content)) [].

(** The mode gate and the audience switch, then [reply]. *)
Definition gate (userId userName : str) (groupName : option str)
    (isGroup : bool) (conversation from : str) : M unit :=
  isHuman <- call (IsHumanMode userId) ;;
  isSupport <- call (IsSupportMode userId) ;;
  if isHuman || isSupport then
    let mode := if isSupport : bool then lit "SOPORTE" else lit "HUMANO" in
    call (LoggerLog SYSTEM (ignored_mode_note mode userName userId)
            None None None undefined)
  else
    enabled <- (if isGroup then call IsGroupsAIEnabled
                else call IsIndividualAIEnabled) ;;
    if negb enabled then
      call (LoggerLog SYSTEM
              (if isGroup then ignored_group_note (default [] groupName)
               else ignored_individual_note userName)
              None None None undefined)
    else reply userId userName groupName isGroup conversation from.

(** The [try] block of the handler registered on ['messages.upsert']. *)
Definition dispatch (m : WA.Upsert) : M unit :=
  match WA.messages m with
  | [] => throw (TypeError "undefined" "message")
  | msg :: _ =>
      match WA.message msg with
      | None => ret tt
      | Some content =>
          console MessageReceived ;;
          console DebugKey ;;
          console DebugPushName ;;
          console DebugVerifiedBizName ;;
          if WA.fromMe (WA.key msg) then console IgnoringOwnMessage
          else
            match WA.remoteJid (WA.key msg) with
            | val from =>
                let isGroup := endsWith suffix_group from in
                let conversation := text_of content in
                if negb (truthy (val conversation))
                   || is_empty (trim conversation) then
                  console IgnoredNoText
                else if isGroup then
                  let userId := replace suffix_group [] from in
                  let userName :=
                    or_else (WA.pushName msg) (lit "Participante") in
                  groupName <-
                    try_catch
                      (subject <- call (GroupMetadata from) ;;
                       ret (or_else subject (lit "Grupo sin nombre")))
                      (fun error =>
                         console (NoGroupMetadata error) ;;
                         ret (lit "Grupo")) ;;
                  call (LoggerLog cliente conversation (Some userId)
                          (Some groupName) (Some isGroup) undefined) ;;
                  gate userId userName (Some groupName) isGroup
                    conversation from
                else
                  let realPhone :=
                    or_ostr (WA.senderPn (WA.key msg)) (val from) in
                  let userId := extractUserId realPhone in
                  let userName := or_else (WA.pushName msg) userId in
                  call (LoggerLog cliente conversation (Some userId)
                          (Some userName) (Some isGroup) undefined) ;;
                  gate userId userName None isGroup conversation from
            | null => throw (TypeError "null" "endsWith")
            | undefined => throw (TypeError "undefined" "endsWith")
            end
      end
  end.

(** The handler registered on ['messages.upsert']. *)
Definition on_messages_upsert (m : WA.Upsert) : M unit :=
  try_catch (dispatch m) (fun error => handleError error (head (WA.messages m))).

(** ** start, logout *)

(** [start()]. *)
Definition start : M unit :=
  b <- get ;;
  if isReconnecting b then console AlreadyReconnecting
  else
    modify (set_isReconnecting true) ;;
    console Starting ;;
    call ValidateApiKey ;;
    try_catch
      (present <- fs_existsSync ;;
       (if negb present then fs_mkdirSync ;; console AuthFolderCreated
        else ret tt) ;;
       call UseMultiFileAuthState ;;
       call FetchLatestBaileysVersion ;;
       console UsingVersion ;;
       call MakeWASocket ;;
       modify (set_sock (Some WASocket)) ;;
       emit (EvOn creds_update) ;;
       emit (EvOn connection_update) ;;
       emit (EvOn messages_update) ;;
       emit (EvOn messages_upsert))
      (fun error =>
         console (ErrorStartingBot error) ;;
         modify (set_isReconnecting false) ;;
         b <- get ;;
         if reconnectAttempts b <? maxReconnectAttempts b then
           modify (fun b => set_reconnectAttempts (reconnectAttempts b + 1) b) ;;
           b <- get ;;
           console (RetryingIn5s (reconnectAttempts b) (maxReconnectAttempts b)) ;;
           setTimeout cb_start 5000
         else ret tt).

(** [logout()]. *)
Definition logout : M bool :=
  console ClosingSession ;;
  try_catch
    (modify (set_connectionStatus disconnected) ;;
     modify (set_currentQR null) ;;
     modify (set_reconnectAttempts 0) ;;
     modify (set_isReconnecting false) ;;
     b <- get ;;
     match sock b with
     | Some _ =>
         try_catch (call SockLogout) (fun err => console (ErrorOnLogout err))
     | None => ret tt
     end ;;
     clearSession ;;
     setTimeout cb_start 2000 ;;
     ret true)
    (fun error => console (ErrorClosingSession error) ;; ret false).

(** ** Executions of the supervisor *)

(** What can happen to a running bot: a method is called from outside, the
    socket delivers an event, or a pending timer fires. *)
Variant Op : Type :=
| OpStart
| OpStop
| OpLogout
| OpConnectionUpdate (update : WA.ConnectionUpdate)
| OpMessagesUpdate (updates : list WA.StatusUpdate)
| OpMessagesUpsert (m : WA.Upsert)
| OpFire (n : nat).

(** The [n]-th pending timer fires: it leaves the timers and its callback,
    [this.start()], runs.  Nothing happens when there is no such timer. *)
Definition fire (n : nat) : M unit :=
  fun env w =>
    match nth_error (timers w) n with
    | Some (cb_start, _) =>
        start env
          {| this := this w; trace := trace w;
             timers := firstn n (timers w) ++ skipn (S n) (timers w);
             auth_baileys := auth_baileys w; statuses := statuses w |}
    | None => (w, Ok tt)
    end.

(** One step; an exception that leaves a handler is lost (an unhandled
    rejection), the world it leaves behind stays. *)
Definition step (loggedOut : Z) (op : Op) (env : Env) (w : World) : World :=
  match op with
  | OpStart => fst (start env w)
  | OpStop => fst (stop env w)
  | OpLogout => fst (logout env w)
  | OpConnectionUpdate u => fst (on_connection_update loggedOut u env w)
  | OpMessagesUpdate l => fst (on_messages_update l env w)
  | OpMessagesUpsert m => fst (on_messages_upsert m env w)
  | OpFire n => fst (fire n env w)
  end.

(** A whole execution. *)
Fixpoint run (loggedOut : Z) (ops : list Op) (env : Env) (w : World) : World :=
  match ops with
  | [] => w
  | op :: ops' => run loggedOut ops' env (step loggedOut op env w)
  end.

(** The world in which a fresh bot starts. *)
Definition boot (auth : bool) : World :=
  {| this := constructor; trace := []; timers := []; auth_baileys := auth;
     statuses := ∅ |}.

(** ** Reading traces *)

(** The calls made between two worlds of one execution. *)
Definition since (w w' : World) : list Event :=
  skipn (List.length (trace w)) (trace w').

(** How many entries of a trace satisfy [p]. *)
Definition count (p : Event -> bool) (l : list Event) : nat :=
  List.length (List.filter p l).

Definition is_purge (e : Event) : bool :=
  match projT2 e with FsRm => true | _ => false end.

Definition is_timeout (e : Event) : bool :=
  match projT2 e with SetTimeout _ _ => true | _ => false end.

Definition is_send (e : Event) : bool :=
  match projT2 e with SendMessage _ _ => true | _ => false end.

Definition is_ai (e : Event) : bool :=
  match projT2 e with GenerateResponse _ => true | _ => false end.

Definition is_log (k : LogKind) (e : Event) : bool :=
  match projT2 e with
  | LoggerLog k' _ _ _ _ _ =>
      match k, k' with
      | cliente, cliente | bot, bot | SYSTEM, SYSTEM | ERROR, ERROR => true
      | _, _ => false
      end
  | _ => false
  end.

(** Calls that change the mode of an identity. *)
Definition is_mode_write (e : Event) : bool :=
  match projT2 e with SetMode _ _ => true | _ => false end.

(** Calls that change a conversation session. *)
Definition is_session_write (e : Event) : bool :=
  match projT2 e with
  | AddMessage _ _ _ _ | UpdateSessionMode _ _ _ => true
  | _ => false
  end.

Definition is_status_write (e : Event) : bool :=
  match projT2 e with UpdateMessageStatus _ _ => true | _ => false end.

Definition is_console (e : Event) : bool :=
  match projT2 e with Console _ => true | _ => false end.

(** The collaborators' calls of a trace: the trace without console lines. *)
Definition calls (l : list Event) : list Event :=
  List.filter (fun e => negb (is_console e)) l.

(** [401], [403] and [405]: the codes of a rejected session. *)
Definition credential_rejection (statusCode : option Z) : bool :=
  code_is statusCode 405 || code_is statusCode 401 || code_is statusCode 403.

(** The state the spec calls Failed.  The bot has no status of that name:
    it is ['disconnected'], with the guard released and the counter above
    the maximum. *)
Definition Failed (b : Bot) : Prop :=
  connectionStatus b = disconnected /\
  isReconnecting b = false /\
  maxReconnectAttempts b < reconnectAttempts b.

(** Kinds of steps. *)
Definition is_credential_close (op : Op) : bool :=
  match op with
  | OpConnectionUpdate u =>
      match WA.connection u with
      | Some WA.close => credential_rejection (WA.statusCode u)
      | _ => false
      end
  | _ => false
  end.

Definition is_transient_close (loggedOut : Z) (op : Op) : bool :=
  match op with
  | OpConnectionUpdate u =>
      match WA.connection u with
      | Some WA.close =>
          negb (credential_rejection (WA.statusCode u))
          && negb (code_is (WA.statusCode u) loggedOut)
      | _ => false
      end
  | _ => false
  end.

Definition is_open (op : Op) : bool :=
  match op with
  | OpConnectionUpdate u =>
      match WA.connection u with Some WA.open => true | _ => false end
  | _ => false
  end.

Definition is_logout (op : Op) : bool :=
  match op with OpLogout => true | _ => false end.

(** Steps that run [start()]. *)
Definition is_start (op : Op) : bool :=
  match op with OpStart | OpFire _ => true | _ => false end.

(** ** Sample collaborators and events *)

(** Collaborators that never fail: the mode store answers [human] and
    [support], both audiences are enabled, the AI answers [ai]. *)
Definition script (human support : bool) (ai : Res str) : Env :=
  fun X _ c =>
    match c in Call X return Res X with
    | Console _ | QrGenerate _ | SetTimeout _ _ | FsMkdir | FsRm
    | ValidateApiKey | UseMultiFileAuthState | FetchLatestBaileysVersion
    | MakeWASocket | EvOn _ | SockLogout | SockEnd
    | LoggerLog _ _ _ _ _ _ | UpdateMessageStatus _ _ | SetMode _ _
    | CancelFollowUp _ _ | AnalyzeUserResponse _ _ _ | StartFollowUpTimer
    | AddMessage _ _ _ _ | UpdateSessionMode _ _ _ | StartCleanupTimer =>
        Ok tt
    | SendMessage _ _ => Ok (val (lit "3EB0A1B2C3"))
    | GroupMetadata _ => Ok (val (lit "Ventas"))
    | IsHumanMode _ => Ok human
    | IsSupportMode _ => Ok support
    | IsGroupsAIEnabled | IsIndividualAIEnabled => Ok true
    | HasActiveFollowUp _ => Ok false
    | GetMessages _ _ => Ok []
    | GetSession _ _ => Ok (mkSession [])
    | GetPrompt _ => Ok (lit "Eres un asistente de ventas.")
    | GenerateResponse _ => ai
    end.

(** Everything works, the identity is in AI mode, the AI says hello. *)
Definition calm : Env := script false false (Ok (lit "Hola")).

(** As [calm], without network: the version of WhatsApp Web cannot be
    fetched. *)
Definition offline : Env :=
  fun X h c =>
    match c in Call X return Res X with
    | FetchLatestBaileysVersion => Throw (mkError (lit "fetch failed"))
    | c' => calm _ h c'
    end.

(** A close event with the given status code. *)
Definition closed (statusCode : Z) : WA.ConnectionUpdate :=
  WA.mkConnectionUpdate (Some WA.close) (Some statusCode) undefined.

(** A text message of a direct chat. *)
Definition direct_text (text : string) : WA.Upsert :=
  WA.mkUpsert
    [WA.mkMessage
       (WA.mkKey false (val (lit "5215512345678@s.whatsapp.net")) undefined
          (val (lit "3A01")))
       (Some (WA.mkContent (val (lit text)) undefined))
       (val (lit "Ana"))].

(** A delivery-status event for message [m1]. *)
Definition status_of_m1 (code : Z) : WA.StatusUpdate :=
  WA.mkStatusUpdate
    (WA.mkKey true (val (lit "5215512345678@s.whatsapp.net")) undefined
       (val (lit "m1")))
    (Some code).


(** ** Reading inbound events *)

(** The identity the handler works with: the group id for a group chat,
    else the sender's number, taken from [senderPn] when it is there. *)
Definition sender_of (msg : WA.Message) (from : str) : str :=
  if endsWith suffix_group from then replace suffix_group [] from
  else extractUserId (or_ostr (WA.senderPn (WA.key msg)) (val from)).

(** An event that gets past the first filters: its first message has a
    content, does not come from the bot, has a chat address, and carries a
    text that is not blank. *)
Definition inbound (m : WA.Upsert) (msg : WA.Message) (content : WA.Content)
    (from : str) : Prop :=
  head (WA.messages m) = Some msg /\
  WA.message msg = Some content /\
  WA.fromMe (WA.key msg) = false /\
  WA.remoteJid (WA.key msg) = val from /\
  truthy (val (text_of content)) = true /\
  is_empty (trim (text_of content)) = false.

(** The collaborators answer every call of the class [ok], whatever was
    called before. *)
Definition nominal (env : Env) (ok : forall X, Call X -> bool) : Prop :=
  forall X (c : Call X) h, ok X c = true -> exists x, env X h c = Ok x.

(** The calls to the logger. *)
Definition logging X (c : Call X) : bool :=
  match c with LoggerLog _ _ _ _ _ _ => true | _ => false end.

(** The calls a dispatch cycle makes, besides the mode and audience
    queries, before it asks the AI. *)
Definition before_ai X (c : Call X) : bool :=
  match c with
  | LoggerLog _ _ _ _ _ _ | HasActiveFollowUp _ | CancelFollowUp _ _
  | AddMessage _ _ _ _ | GetPrompt _ | GetMessages _ _ => true
  | _ => false
  end.

(** The identity is in AI mode and its audience is enabled. *)
Definition ai_allowed (env : Env) (userId from : str) : Prop :=
  (forall h, env _ h (IsHumanMode userId) = Ok false) /\
  (forall h, env _ h (IsSupportMode userId) = Ok false) /\
  (forall h, env _ h (if endsWith suffix_group from then IsGroupsAIEnabled
                      else IsIndividualAIEnabled) = Ok true).

(** Whatever the collaborators throw is an [Error]. *)
Definition throws_errors (env : Env) : Prop :=
  forall X h (c : Call X) t, env X h c = Throw t -> exists error, t = raised error.

(** The socket's [sendMessage]. *)
Definition sending X (c : Call X) : bool :=
  match c with SendMessage _ _ => true | _ => false end.

(** Every call. *)
Definition any_call X (c : Call X) : bool := true.

(** An event whose first message gets to the AI: it passes the first
    filters, its identity is in AI mode and its audience is enabled. *)
Definition reaches_ai (env : Env) (m : WA.Upsert) : Prop :=
  exists msg content from,
    inbound m msg content from /\ ai_allowed env (sender_of msg from) from.

(** A customer asks for a person, in a direct chat. *)
Definition asks_for_person : WA.Upsert :=
  direct_text "Quiero hablar con una persona".

(** An AI answer that carries the marker twice. *)
Definition answer_with_two_markers : str :=
  lit "Te comunico con soporte. {{ACTIVAR_SOPORTE}} {{ACTIVAR_SOPORTE}}".

(** ** Frames *)

(** A relation between the world before and the world after that every
    statement of a handler body keeps: it is a preorder, and recording a
    call or writing a status stays inside it. *)
Class Frame (R : World -> World -> Prop) : Prop := {
  frame_refl : forall w, R w w;
  frame_trans : forall w1 w2 w3, R w1 w2 -> R w2 w3 -> R w1 w3;
  frame_record : forall X (c : Call X) w, R w (record c w);
  frame_statuses : forall f w, R w (with_statuses f w)
}.

(** The computation [m] stays inside [R]. *)
Definition respects (R : World -> World -> Prop) {A} (m : M A) : Prop :=
  forall env w, R w (fst (m env w)).

(** The fields of the bot are the same before and after. *)
Definition same_bot (w w' : World) : Prop := this w' = this w.

(** The trace after is the trace before, with calls added at its end. *)
Definition extends (w w' : World) : Prop :=
  exists seg, trace w' = trace w ++ seg.

(** ** Reading the supervisor and the status handler *)

(** The calls [start()] makes to set the socket up. *)
Definition setup X (c : Call X) : bool :=
  match c with
  | ValidateApiKey | FsMkdir | UseMultiFileAuthState
  | FetchLatestBaileysVersion | MakeWASocket => true
  | _ => false
  end.

(** The calls that arm the timers of the session manager and of the
    follow-up service. *)
Definition arming X (c : Call X) : bool :=
  match c with StartCleanupTimer | StartFollowUpTimer => true | _ => false end.

Definition is_socket (e : Event) : bool :=
  match projT2 e with MakeWASocket => true | _ => false end.

Definition is_arming (e : Event) : bool :=
  match projT2 e with
  | StartCleanupTimer | StartFollowUpTimer => true
  | _ => false
  end.

(** The API key is accepted, and the version of WhatsApp Web can never be
    fetched: every [start()] fails inside its [try] block. *)
Definition setup_fails (env : Env) : Prop :=
  (forall h, env _ h ValidateApiKey = Ok tt) /\
  (forall h, exists e, env _ h FetchLatestBaileysVersion = Throw e).

(** No pairing challenge is kept while the bot is connected. *)
Definition qr_hidden (b : Bot) : Prop :=
  connectionStatus b = connected -> currentQR b = null.

(** What belongs to the supervisor is the same before and after: the
    fields of the bot, the pending timers, the credentials folder. *)
Definition same_supervisor (w w' : World) : Prop :=
  this w' = this w /\ timers w' = timers w /\ auth_baileys w' = auth_baileys w.

(** The status the [messages.update] handler reads in a transport code. *)
Definition status_of_code (code : option Z) : option Status :=
  if code_is code 4 then Some read
  else if code_is code 2 then Some delivered
  else if code_is code 1 then Some sent
  else None.

(** The write one status update leads to, when it leads to one: its code
    is known and it carries a message id. *)
Definition status_write (update : WA.StatusUpdate) : option Event :=
  match status_of_code (WA.status update), WA.id (WA.update_key update) with
  | Some s, val (c :: i) => Some (ev (UpdateMessageStatus (c :: i) s))
  | _, _ => None
  end.

(** ** More sample collaborators and events *)


(** As [calm], with the AI switched off for both audiences. *)
Definition switched_off : Env :=
  fun X h c =>
    match c in Call X return Res X with
    | IsGroupsAIEnabled | IsIndividualAIEnabled => Ok false
    | c' => calm _ h c'
    end.

(** As [calm], with a socket that knows no group. *)
Definition no_metadata : Env :=
  fun X h c =>
    match c in Call X return Res X with
    | GroupMetadata _ => Throw (mkError (lit "item-not-found"))
    | c' => calm _ h c'
    end.


(** As [calm], with a session store that cannot be written. *)
Definition session_store_down : Env :=
  fun X h c =>
    match c in Call X return Res X with
    | AddMessage _ _ _ _ => Throw (mkError (lit "connect ECONNREFUSED"))
    | c' => calm _ h c'
    end.

(** Every call is rejected, with a value that is no [Error]. *)
Definition rejecting : Env := fun _ _ _ => Throw a_value.

(** The ['open'] event. *)
Definition opened : WA.ConnectionUpdate :=
  WA.mkConnectionUpdate (Some WA.open) None undefined.

(** The first message of [direct_text "Hola"] and its content. *)
Definition hola_content : WA.Content := WA.mkContent (val (lit "Hola")) undefined.

Definition hola_message : WA.Message :=
  WA.mkMessage
    (WA.mkKey false (val (lit "5215512345678@s.whatsapp.net")) undefined
       (val (lit "3A01")))
    (Some hola_content) (val (lit "Ana")).

(** The echo of a message the bot sent itself. *)
Definition own_echo : WA.Message :=
  WA.mkMessage
    (WA.mkKey true (val (lit "5215512345678@s.whatsapp.net")) undefined
       (val (lit "3EB0A1B2C3")))
    (Some hola_content) undefined.

(** A text message in a group. *)
Definition group_message : WA.Message :=
  WA.mkMessage
    (WA.mkKey false (val (lit "120363041234567890@g.us")) undefined
       (val (lit "3A02")))
    (Some hola_content) (val (lit "Luis")).
(** ** The web server: calculateStats *)

Module WebServer.

(** [a === b] for two strings. *)
Fixpoint str_eqb (a b : str) : bool :=
  match a, b with
  | [], [] => true
  | x :: a', y :: b' => N.eqb x y && str_eqb a' b'
  | _, _ => false
  end.

(** [v === 'literal'] for a field that may be absent. *)
Definition strict_eq (v : ostr) (literal : string) : bool :=
  match v with
  | val s => str_eqb s (lit literal)
  | _ => false
  end.

(** [console.warn] of [calculateStats]. *)
Variant Warning : Type := LogsNotAnArray.

Section CalculateStats.

(** What [log.timestamp] holds, and the two operations of the runtime that
    [calculateStats] applies to it and to the lengths: the hour of a date in
    the server's time zone ([None] is [NaN]), and the rounded quotient of
    two numbers. *)
Context {Timestamp : Type}.
Variable getHours : Timestamp -> option Z.
Variable round_quotient : Z -> Z -> Z.

(** One entry of the logs, with the fields [calculateStats] reads. *)
Record Log : Type := mkLog {
  type : ostr;
  userId : ostr;
  message : ostr;
  timestamp : Timestamp
}.

(** The object [calculateStats] returns. *)
Record Stats : Type := mkStats {
  totalMessages : Z;
  userMessages : Z;
  botMessages : Z;
  errors : Z;
  uniqueUsers : Z;
  messagesByHour : gmap (option Z) Z;
  averageResponseLength : Z
}.

(** The state of the loop: [stats] while [uniqueUsers] is still a set, and
    the two local counters. *)
Record Tally : Type := mkTally {
  total : Z;
  users : Z;
  bots : Z;
  failures : Z;
  seen : gset str;
  byHour : gmap (option Z) Z;
  totalResponseLength : Z;
  responseCount : Z
}.

(** The state before the loop. *)
Definition start_tally : Tally :=
  {| total := 0; users := 0; bots := 0; failures := 0; seen := ∅;
     byHour := ∅; totalResponseLength := 0; responseCount := 0 |}.

(** The three branches on [log.type]. *)
Definition classify (t : Tally) (log : Log) : Res Tally :=
  if strict_eq (type log) "USER" then
    Ok {| total := total t + 1; users := users t + 1; bots := bots t;
          failures := failures t;
          seen := match userId log with
                  | val (c :: u) => {[ c :: u ]} ∪ seen t
                  | _ => seen t
                  end;
          byHour := byHour t;
          totalResponseLength := totalResponseLength t;
          responseCount := responseCount t |}
  else if strict_eq (type log) "BOT" then
    match message log with
    | val s =>
        Ok {| total := total t + 1; users := users t; bots := bots t + 1;
              failures := failures t; seen := seen t; byHour := byHour t;
              totalResponseLength :=
                totalResponseLength t + Z.of_nat (List.length s);
              responseCount := responseCount t + 1 |}
    | null => Throw (TypeError "null" "length")
    | undefined => Throw (TypeError "undefined" "length")
    end
  else if strict_eq (type log) "ERROR" then
    Ok {| total := total t; users := users t; bots := bots t;
          failures := failures t + 1; seen := seen t; byHour := byHour t;
          totalResponseLength := totalResponseLength t;
          responseCount := responseCount t |}
  else Ok t.

(** [stats.messagesByHour[hour] = (stats.messagesByHour[hour] || 0) + 1]. *)
Definition count_hour (hour : option Z) (m : gmap (option Z) Z)
    : gmap (option Z) Z :=
  <[hour := default 0 (m !! hour) + 1]> m.

(** The callback of [logs.forEach]. *)
Definition visit (t : Tally) (log : Log) : Res Tally :=
  match classify t log with
  | Ok t' =>
      Ok {| total := total t'; users := users t'; bots := bots t';
            failures := failures t'; seen := seen t';
            byHour := count_hour (getHours (timestamp log)) (byHour t');
            totalResponseLength := totalResponseLength t';
            responseCount := responseCount t' |}
  | Throw e => Throw e
  end.

(** [logs.forEach(...)]: an exception ends the loop. *)
Fixpoint forEach (logs : list Log) (t : Tally) : Res Tally :=
  match logs with
  | [] => Ok t
  | log :: rest =>
      match visit t log with
      | Ok t' => forEach rest t'
      | Throw e => Throw e
      end
  end.

(** [calculateStats(logs)]; [None] is an argument that is not an array. *)
Definition calculateStats (logs : option (list Log))
    : list Warning * Res Stats :=
  match logs with
  | None =>
      ([LogsNotAnArray],
       Ok {| totalMessages := 0; userMessages := 0; botMessages := 0;
             errors := 0; uniqueUsers := 0; messagesByHour := ∅;
             averageResponseLength := 0 |})
  | Some logs =>
      ([],
       match forEach logs start_tally with
       | Ok t =>
           Ok {| totalMessages := total t; userMessages := users t;
                 botMessages := bots t; errors := failures t;
                 uniqueUsers := Z.of_nat (size (seen t));
                 messagesByHour := byHour t;
                 averageResponseLength :=
                   if 0 <? responseCount t
                   then round_quotient (totalResponseLength t) (responseCount t)
                   else 0 |}
       | Throw e => Throw e
       end)
  end.

(** How many entries the hours hold together. *)
Definition entries (m : gmap (option Z) Z) : Z :=
  map_fold (fun _ n sum => n + sum) 0 m.

(** What the loop of [calculateStats] keeps true, [n] entries into the
    logs. *)
Definition tallied (n : Z) (t : Tally) : Prop :=
  total t = users t + bots t /\
  0 <= users t /\ 0 <= bots t /\ 0 <= failures t /\
  Z.of_nat (size (seen t)) <= users t /\
  total t + failures t <= n /\
  entries (byHour t) = n /\
  responseCount t = bots t /\
  0 <= totalResponseLength t.

(** A BOT entry whose message is not a string. *)
Definition bot_without_message (log : Log) : bool :=
  strict_eq (type log) "BOT"
  && match message log with val _ => false | _ => true end.

End CalculateStats.

End WebServer.

(** Three entries of a log, with seconds since midnight as time stamps. *)
Definition sample_logs : list (@WebServer.Log Z) :=
  [WebServer.mkLog (val (lit "USER")) (val (lit "5215512345678"))
     (val (lit "Hola")) 36000;
   WebServer.mkLog (val (lit "BOT")) (val (lit "5215512345678"))
     (val (lit "Hola, dime")) 36005;
   WebServer.mkLog (val (lit "ERROR")) undefined (val (lit "timeout")) 40000].

(** The hour of such a time stamp, and the quotient rounded half up. *)
Definition sample_hours (t : Z) : option Z := Some (t / 3600).
Definition sample_round (a b : Z) : Z := (2 * a + b) / (2 * b).

(** * Properties *)

(** ** Strings *)

Section StringFacts.

Lemma startsWith_app (p t : str) : startsWith p (p ++ t) = true.
Proof.
  induction p as [|a p IH]; simpl; [reflexivity|].
  now rewrite N.eqb_refl, IH.
Qed.

Lemma startsWith_head (a c : N) (p s : str) :
  a <> c -> startsWith (a :: p) (c :: s) = false.
Proof.
  intros Hne. simpl. apply N.eqb_neq in Hne. now rewrite Hne.
Qed.

(** A pattern that opens with a character absent from [u] is first found,
    in [u ++ t], where it is first found in [t]. *)
Lemma indexOf_skip (a : N) (p u t : str) :
  ~ In a u ->
  indexOf (a :: p) (u ++ t)
  = option_map (Nat.add (List.length u)) (indexOf (a :: p) t).
Proof.
  induction u as [|c u IH]; intros Hfresh.
  - simpl app. destruct (indexOf (a :: p) t); reflexivity.
  - assert (Hc : a <> c) by (intros ->; apply Hfresh; now left).
    assert (Hu : ~ In a u) by (intros Hin; apply Hfresh; now right).
    change ((c :: u) ++ t) with (c :: (u ++ t)).
    cbn [indexOf]. rewrite (startsWith_head _ _ _ _ Hc), (IH Hu).
    destruct (indexOf (a :: p) t); reflexivity.
Qed.

Lemma indexOf_here (p t : str) : indexOf p (p ++ t) = Some 0%nat.
Proof.
  destruct p as [|a p]; [destruct t; reflexivity|].
  change ((a :: p) ++ t) with (a :: (p ++ t)).
  cbn [indexOf]. change (a :: (p ++ t)) with ((a :: p) ++ t).
  now rewrite startsWith_app.
Qed.

(** Removing a pattern that sits right after [u]. *)
Lemma replace_after (a : N) (p u t : str) :
  ~ In a u -> replace (a :: p) [] (u ++ (a :: p) ++ t) = u ++ t.
Proof.
  intros Hfresh. unfold replace.
  rewrite (indexOf_skip _ _ _ _ Hfresh), indexOf_here. cbn [option_map].
  rewrite Nat.add_0_r, firstn_app, Nat.sub_diag, firstn_all, firstn_O.
  rewrite app_nil_r. cbn [app]. f_equal.
  rewrite skipn_app, (skipn_all2 u) by lia. cbn [app].
  replace (List.length u + List.length (a :: p) - List.length u)%nat
    with (List.length (a :: p)) by lia.
  change (a :: p ++ t) with ((a :: p) ++ t).
  now rewrite skipn_app, skipn_all, Nat.sub_diag.
Qed.

(** Nothing is removed when the pattern occurs neither in [u] nor in [t]. *)
Lemma replace_absent (a : N) (p u t : str) :
  ~ In a u -> indexOf (a :: p) t = None ->
  replace (a :: p) [] (u ++ t) = u ++ t.
Proof.
  intros Hfresh Hnone. unfold replace.
  now rewrite (indexOf_skip _ _ _ _ Hfresh), Hnone.
Qed.

Lemma extractUserId_val (s : str) :
  extractUserId (val s)
  = replace suffix_group [] (replace suffix_lid [] (replace suffix_direct [] s)).
Proof. destruct s; reflexivity. Qed.

End StringFacts.

(** ** extractUserId (C10) *)

Example extractUserId_direct :
  extractUserId (val (lit "5215512345678@s.whatsapp.net")) = lit "5215512345678".
Proof. reflexivity. Qed.

Example extractUserId_group :
  extractUserId (val (lit "120363041234567890@g.us")) = lit "120363041234567890".
Proof. reflexivity. Qed.

(** C10: [extractUserId] returns [''] for [undefined], [null] and [''],
    never raising; and for a transport address - a part [u] free of ['@']
    (code unit 64), followed by one of the three suffixes - it returns [u],
    the address with that suffix removed. *)
Theorem extractUserId_total_strips_suffix (u suffix : str) :
  In suffix [suffix_direct; suffix_lid; suffix_group] ->
  ~ In 64%N u ->
  extractUserId undefined = [] /\
  extractUserId null = [] /\
  extractUserId (val []) = [] /\
  extractUserId (val (u ++ suffix)) = u.
Proof.
  intros Hsuf Hfresh. repeat split.
  rewrite extractUserId_val.
  assert (Hown : forall p, replace (64%N :: p) [] (u ++ 64%N :: p) = u).
  { intros p. rewrite <- (app_nil_r (64%N :: p)) at 2.
    rewrite (replace_after _ _ _ _ Hfresh). apply app_nil_r. }
  assert (Hother : forall p t, indexOf (64%N :: p) t = None ->
                     replace (64%N :: p) [] (u ++ t) = u ++ t).
  { intros p t. apply replace_absent, Hfresh. }
  assert (Hnone : forall p, replace (64%N :: p) [] u = u).
  { intros p. rewrite <- (app_nil_r u) at 1.
    rewrite (Hother p [] eq_refl). apply app_nil_r. }
  change suffix_direct with (64%N :: lit "s.whatsapp.net") in *.
  change suffix_lid with (64%N :: lit "lid") in *.
  change suffix_group with (64%N :: lit "g.us") in *.
  destruct Hsuf as [<-|[<-|[<-|[]]]].
  - now rewrite Hown, !Hnone.
  - rewrite (Hother (lit "s.whatsapp.net") (64%N :: lit "lid") eq_refl).
    now rewrite Hown, Hnone.
  - rewrite (Hother (lit "s.whatsapp.net") (64%N :: lit "g.us") eq_refl).
    rewrite (Hother (lit "lid") (64%N :: lit "g.us") eq_refl).
    apply Hown.
Qed.

Lemma extractUserId_total_strips_suffix_witness :
  In suffix_lid [suffix_direct; suffix_lid; suffix_group] /\
  ~ In 64%N (lit "5215512345678") /\
  extractUserId (val (lit "5215512345678" ++ suffix_lid)) = lit "5215512345678".
Proof.
  assert (Hs : In suffix_lid [suffix_direct; suffix_lid; suffix_group])
    by (right; left; reflexivity).
  assert (Hf : ~ In 64%N (lit "5215512345678")).
  { vm_compute. intros H. repeat (destruct H as [H|H]; [discriminate H|]). exact H. }
  split; [exact Hs|]. split; [exact Hf|].
  exact (proj2 (proj2 (proj2
    (extractUserId_total_strips_suffix (lit "5215512345678") suffix_lid Hs Hf)))).
Defined.

(** ** Running a handler by hand *)

(** String operations stay folded while a handler is run. *)
Arguments truthy : simpl never.
Arguments is_empty : simpl never.
Arguments or_else : simpl never.
Arguments or_ostr : simpl never.
Arguments endsWith : simpl never.
Arguments includes : simpl never.
Arguments replace : simpl never.
Arguments trim : simpl never.
Arguments extractUserId : simpl never.
Arguments text_of : simpl never.
Arguments errorMessage : simpl never.
Arguments lit : simpl never.
Arguments suffix_direct : simpl never.
Arguments suffix_lid : simpl never.
Arguments suffix_group : simpl never.
Arguments marker : simpl never.
Arguments client_replied : simpl never.
Arguments ignored_mode_note : simpl never.
Arguments ignored_group_note : simpl never.
Arguments ignored_individual_note : simpl never.
Arguments support_activated_note : simpl never.

Lemma skipn_prefix {A} (l seg : list A) : skipn (List.length l) (l ++ seg) = seg.
Proof. induction l; simpl; auto. Qed.

(** Unfold the monad and compute as far as the oracle allows. *)
Ltac run_step :=
  unfold bind, try_catch, modify, get, console, emit, call, ret, throw,
    setTimeout, fs_rm, fs_mkdirSync, fs_existsSync, updateMessageStatus; cbn.

(** Ask the oracle: split on the outcome of the next call in the goal. *)
Ltac ask :=
  match goal with
  | e : Env |- context [?e' ?X ?h ?c] =>
      constr_eq e e';
      let H := fresh "Hanswer" in destruct (e X h c) eqn:H; cbn
  end.

(** Answer the next call from a hypothesis on the collaborators. *)
Ltac answer :=
  match goal with
  | H : forall h, ?e ?X h ?c = _ |- context [?e ?X ?h0 ?c] =>
      rewrite (H h0); cbn
  | Hn : nominal ?e ?ok |- context [?e ?X ?h ?c] =>
      let x := fresh "x" in
      let Hx := fresh "Hx" in
      destruct (Hn X c h eq_refl) as [x Hx]; rewrite Hx; clear Hx; cbn
  end.

(** Bring [since w w'] to the list of calls that were appended. *)
Ltac trace_norm :=
  unfold since, count; cbn; rewrite <- ?app_assoc; rewrite ?skipn_prefix; cbn.

(** ** The supervisor: close events (C1, C2) *)

Example close_401_first :
  let w' := fst (on_connection_update 401 (closed 401) calm (boot true)) in
  reconnectAttempts (this w') = 1 /\ timers w' = [(cb_start, 5000)] /\
  auth_baileys w' = false.
Proof. vm_compute. repeat split. Qed.

(** C1, as stated, fails: on the fourth rejection in a row the handler
    returns before [clearSession()], so no removal of the credentials is
    issued and the folder stays. *)
Lemma exhausted_close_keeps_credentials :
  ~ (forall loggedOut update env w,
       WA.connection update = Some WA.close ->
       credential_rejection (WA.statusCode update) = true ->
       maxReconnectAttempts (this w) = 3 ->
       count is_purge (since w (fst (on_connection_update loggedOut update env w)))
       = 1%nat).
Proof.
  intros H.
  specialize (H 401 (closed 401) calm
                (with_this (set_reconnectAttempts 3) (boot true))
                eq_refl eq_refl eq_refl).
  vm_compute in H. discriminate H.
Qed.

(** C1, amended: a close event with code 401, 403 or 405 increments
    [reconnectAttempts] exactly once.  If the counter then exceeds the
    maximum of 3, the bot is in the state the spec calls Failed, no timer is
    added, and the credentials are NOT removed (no removal is issued).
    Otherwise the removal of the credentials is issued exactly once (and the
    folder is gone when the removal succeeds) and exactly one reconnect is
    scheduled, 5000 ms later. *)
Theorem credential_rejection_close loggedOut update env w :
  WA.connection update = Some WA.close ->
  credential_rejection (WA.statusCode update) = true ->
  maxReconnectAttempts (this w) = 3 ->
  let w' := fst (on_connection_update loggedOut update env w) in
  reconnectAttempts (this w') = reconnectAttempts (this w) + 1 /\
  if 3 <? reconnectAttempts (this w') then
    Failed (this w') /\
    timers w' = timers w /\
    count is_timeout (since w w') = 0%nat /\
    count is_purge (since w w') = 0%nat /\
    auth_baileys w' = auth_baileys w
  else
    connectionStatus (this w') = disconnected /\
    isReconnecting (this w') = false /\
    timers w' = timers w ++ [(cb_start, 5000)] /\
    count is_timeout (since w w') = 1%nat /\
    count is_purge (since w w') = 1%nat /\
    ((forall h, env _ h FsRm = Ok tt) -> auth_baileys w' = false).
Proof.
  intros Hclose Hcode Hmax.
  unfold on_connection_update, credential_rejection, clearSession in *.
  rewrite Hclose.
  destruct (truthy (WA.qr update)); run_step; rewrite Hcode; cbn; rewrite Hmax.
  all: destruct (3 <? reconnectAttempts (this w) + 1) eqn:Hexceeds; cbn.
  all: try ask.
  all: rewrite ?Hexceeds; unfold Failed; cbn; rewrite ?Hmax.
  all: repeat split; try reflexivity; try lia; try (trace_norm; reflexivity).
  all: intros Hok; rewrite Hok in *; discriminate.
Qed.

Lemma credential_rejection_close_witness :
  WA.connection (closed 403) = Some WA.close /\
  credential_rejection (WA.statusCode (closed 403)) = true /\
  maxReconnectAttempts (this (boot true)) = 3 /\
  reconnectAttempts
    (this (fst (on_connection_update 401 (closed 403) calm (boot true))))
  = reconnectAttempts (this (boot true)) + 1.
Proof.
  split; [reflexivity|]. split; [reflexivity|]. split; [reflexivity|].
  destruct (credential_rejection_close 401 (closed 403) calm (boot true)
              eq_refl eq_refl eq_refl) as [Hcounter _].
  exact Hcounter.
Defined.

(** C2, as stated, fails: a transient close does not leave the counter as
    it was, it writes 0 into it.  After two rejections (counter 2) a close
    with code 408 leaves the counter at 0. *)
Lemma transient_close_changes_counter :
  ~ (forall loggedOut update env w,
       WA.connection update = Some WA.close ->
       credential_rejection (WA.statusCode update) = false ->
       code_is (WA.statusCode update) loggedOut = false ->
       reconnectAttempts
         (this (fst (on_connection_update loggedOut update env w)))
       = reconnectAttempts (this w)).
Proof.
  intros H.
  specialize (H 401 (closed 408) calm
                (with_this (set_reconnectAttempts 2) (boot true))
                eq_refl eq_refl eq_refl).
  vm_compute in H. discriminate H.
Qed.

(** One transient close, whatever the state of the bot. *)
Lemma transient_close_once loggedOut update env w :
  WA.connection update = Some WA.close ->
  credential_rejection (WA.statusCode update) = false ->
  code_is (WA.statusCode update) loggedOut = false ->
  let w' := fst (on_connection_update loggedOut update env w) in
  reconnectAttempts (this w') = 0 /\
  connectionStatus (this w') = disconnected /\
  isReconnecting (this w') = false /\
  timers w' = timers w ++ [(cb_start, 5000)] /\
  count is_timeout (since w w') = 1%nat /\
  count is_purge (since w w') = 0%nat /\
  auth_baileys w' = auth_baileys w.
Proof.
  intros Hclose Hcode Hout.
  unfold on_connection_update, credential_rejection in *.
  rewrite Hclose.
  destruct (truthy (WA.qr update)); run_step; rewrite Hcode, Hout; cbn.
  all: repeat split; trace_norm; reflexivity.
Qed.

(** [n] transient closes in a row schedule [n] reconnects. *)
Lemma transient_closes_timers loggedOut update env (n : nat) : forall w,
  WA.connection update = Some WA.close ->
  credential_rejection (WA.statusCode update) = false ->
  code_is (WA.statusCode update) loggedOut = false ->
  timers (run loggedOut (repeat (OpConnectionUpdate update) n) env w)
  = timers w ++ repeat (cb_start, 5000) n.
Proof.
  induction n as [|n IH]; intros w Hclose Hcode Hout; cbn [repeat run].
  - now rewrite app_nil_r.
  - rewrite (IH _ Hclose Hcode Hout). cbn [step].
    destruct (transient_close_once loggedOut update env w Hclose Hcode Hout)
      as (_ & _ & _ & -> & _).
    now rewrite <- app_assoc.
Qed.

(** C2, amended: a close event whose code is neither the logout code nor
    401/403/405 schedules exactly one reconnect, 5000 ms later, removes no
    credentials, and sets [reconnectAttempts] to 0 (it does not leave it
    unchanged).  It does so whatever the counter was, so [n] such closes in
    a row schedule [n] reconnects: the retries are not bounded and never
    use up the attempts kept for rejected credentials. *)
Theorem transient_close loggedOut update env w (n : nat) :
  WA.connection update = Some WA.close ->
  credential_rejection (WA.statusCode update) = false ->
  code_is (WA.statusCode update) loggedOut = false ->
  let w' := fst (on_connection_update loggedOut update env w) in
  (reconnectAttempts (this w') = 0 /\
   connectionStatus (this w') = disconnected /\
   isReconnecting (this w') = false /\
   timers w' = timers w ++ [(cb_start, 5000)] /\
   count is_timeout (since w w') = 1%nat /\
   count is_purge (since w w') = 0%nat /\
   auth_baileys w' = auth_baileys w) /\
  timers (run loggedOut (repeat (OpConnectionUpdate update) n) env w)
  = timers w ++ repeat (cb_start, 5000) n.
Proof.
  intros Hclose Hcode Hout. split.
  - now apply transient_close_once.
  - now apply transient_closes_timers.
Qed.

Lemma transient_close_witness :
  WA.connection (closed 408) = Some WA.close /\
  credential_rejection (WA.statusCode (closed 408)) = false /\
  code_is (WA.statusCode (closed 408)) 401 = false /\
  timers (run 401 (repeat (OpConnectionUpdate (closed 408)) 5) calm (boot true))
  = repeat (cb_start, 5000) 5.
Proof.
  split; [reflexivity|]. split; [reflexivity|]. split; [reflexivity|].
  exact (proj2 (transient_close 401 (closed 408) calm (boot true) 5
                  eq_refl eq_refl eq_refl)).
Defined.

(** ** What a handler leaves alone *)

Section Respects.

Context (R : World -> World -> Prop) `{!Frame R} {A B : Type}.

Lemma respects_ret (a : A) : respects R (ret a).
Proof. intros env w. apply frame_refl. Qed.

Lemma respects_throw (e : Thrown) : respects R (@throw A e).
Proof. intros env w. apply frame_refl. Qed.

Lemma respects_call (c : Call A) : respects R (call c).
Proof. intros env w. apply frame_record. Qed.

Lemma respects_emit (c : Call A) : respects R (emit c).
Proof. intros env w. apply frame_record. Qed.

Lemma respects_get : respects R get.
Proof. intros env w. apply frame_refl. Qed.

Lemma respects_updateMessageStatus i s : respects R (updateMessageStatus i s).
Proof.
  intros env w. unfold updateMessageStatus.
  destruct (env _ (trace w) (UpdateMessageStatus i s)); cbn.
  - eapply frame_trans; [apply frame_record|apply frame_statuses].
  - apply frame_record.
Qed.

Lemma respects_bind (m : M A) (k : A -> M B) :
  respects R m -> (forall a, respects R (k a)) -> respects R (bind m k).
Proof.
  intros Hm Hk env w. unfold bind. specialize (Hm env w).
  destruct (m env w) as [w1 [a|e]]; cbn in *; [|exact Hm].
  eapply frame_trans; [exact Hm|apply Hk].
Qed.

Lemma respects_try (m : M A) (h : Thrown -> M A) :
  respects R m -> (forall e, respects R (h e)) -> respects R (try_catch m h).
Proof.
  intros Hm Hh env w. unfold try_catch. specialize (Hm env w).
  destruct (m env w) as [w1 [a|e]]; cbn in *; [exact Hm|].
  eapply frame_trans; [exact Hm|apply Hh].
Qed.

End Respects.

(** Walk through a handler body, one construct at a time. *)
Ltac walk :=
  repeat first
    [ apply respects_ret | apply respects_throw | apply respects_call
    | apply respects_emit | apply respects_get
    | apply respects_updateMessageStatus
    | apply respects_bind | apply respects_try
    | match goal with
      | |- Frame _ => exact _
      | |- forall _, _ => intro
      | |- respects _ (if ?b then _ else _) => destruct b
      | |- respects _ (match ?x with _ => _ end) => destruct x
      end ].

Section Handlers.

Context (R : World -> World -> Prop) `{!Frame R}.

Lemma respects_stop : respects R stop.
Proof. unfold stop, console. walk. Qed.

Lemma respects_on_messages_update updates :
  respects R (on_messages_update updates).
Proof.
  induction updates as [|u updates IH]; cbn [on_messages_update].
  - walk.
  - apply respects_bind; [exact _| |intros _; exact IH].
    unfold on_status_update, console. walk.
Qed.

Lemma respects_processMessage userId text chatId :
  respects R (processMessage userId text chatId).
Proof. unfold processMessage. walk. Qed.

Lemma respects_handleError error msg : respects R (handleError error msg).
Proof. unfold handleError, console. walk. Qed.

Lemma respects_on_messages_upsert m : respects R (on_messages_upsert m).
Proof.
  unfold on_messages_upsert.
  apply respects_try; [exact _| |intro; apply respects_handleError].
  unfold dispatch, gate, reply, console.
  pose proof respects_processMessage as Hprocess.
  repeat first [ apply Hprocess | progress walk ].
Qed.

End Handlers.

#[local] Instance same_bot_frame : Frame same_bot.
Proof.
  split; unfold same_bot; cbn; try reflexivity.
  intros w1 w2 w3 H12 H23. now rewrite H23.
Qed.

#[local] Instance extends_frame : Frame extends.
Proof.
  split; unfold extends; cbn.
  - intros w. exists []. now rewrite app_nil_r.
  - intros w1 w2 w3 [s1 H1] [s2 H2]. exists (s1 ++ s2).
    now rewrite H2, H1, app_assoc.
  - intros X c w. now exists [ev c].
  - intros f w. exists []. now rewrite app_nil_r.
Qed.

Lemma keeps_stop env w : this (fst (stop env w)) = this w.
Proof. apply (respects_stop same_bot). Qed.

Lemma keeps_on_messages_update updates env w :
  this (fst (on_messages_update updates env w)) = this w.
Proof. apply (respects_on_messages_update same_bot). Qed.

Lemma keeps_on_messages_upsert m env w :
  this (fst (on_messages_upsert m env w)) = this w.
Proof. apply (respects_on_messages_upsert same_bot). Qed.

(** ** ReconnectCounter over every step (C3) *)

Lemma connection_update_counter loggedOut update env w :
  let n := reconnectAttempts (this w) in
  let n' := reconnectAttempts
              (this (fst (on_connection_update loggedOut update env w))) in
  match WA.connection update with
  | Some WA.close =>
      if credential_rejection (WA.statusCode update) then n' = n + 1
      else if code_is (WA.statusCode update) loggedOut then n' = n
      else n' = 0
  | Some WA.open => n' = 0
  | _ => n' = n
  end.
Proof.
  unfold on_connection_update, credential_rejection, clearSession.
  destruct (WA.connection update) as [[| |]|];
    destruct (truthy (WA.qr update)); run_step; try reflexivity.
  1,2: destruct (code_is (WA.statusCode update) 405
                 || code_is (WA.statusCode update) 401
                 || code_is (WA.statusCode update) 403); cbn;
       [ destruct (maxReconnectAttempts (this w) <? reconnectAttempts (this w) + 1);
         cbn; try ask; reflexivity
       | destruct (code_is (WA.statusCode update) loggedOut); reflexivity ].
  all: repeat ask; reflexivity.
Qed.

Lemma start_counter env w :
  let n := reconnectAttempts (this w) in
  let n' := reconnectAttempts (this (fst (start env w))) in
  n' = n \/ (n' = n + 1 /\ n < maxReconnectAttempts (this w)).
Proof.
  unfold start. run_step.
  destruct (isReconnecting (this w)); cbn; [now left|].
  ask; [|now left].
  destruct (auth_baileys w); cbn; repeat ask; try (now left).
  all: destruct (reconnectAttempts (this w) <? maxReconnectAttempts (this w))
         eqn:Hbelow; cbn; [right; split; [reflexivity|lia] | now left].
Qed.

Lemma fire_counter k env w :
  let n := reconnectAttempts (this w) in
  let n' := reconnectAttempts (this (fst (fire k env w))) in
  n' = n \/ (n' = n + 1 /\ n < maxReconnectAttempts (this w)).
Proof.
  unfold fire. destruct (nth_error (timers w) k) as [[[] ms]|]; [|now left].
  apply (start_counter env
           {| this := this w; trace := trace w;
              timers := firstn k (timers w) ++ skipn (S k) (timers w);
              auth_baileys := auth_baileys w; statuses := statuses w |}).
Qed.

Lemma logout_counter env w :
  reconnectAttempts (this (fst (logout env w))) = 0.
Proof.
  unfold logout, clearSession. run_step.
  destruct (sock (this w)); cbn; repeat ask; reflexivity.
Qed.

Example start_offline_counts :
  reconnectAttempts (this (step 401 OpStart offline (boot true))) = 1.
Proof. reflexivity. Qed.

(** C3, as stated, fails: the counter is also incremented with no close
    event at all, by the [catch] block of [start()].  A fresh bot that
    cannot fetch the version of WhatsApp Web ends [start()] with counter 1. *)
Lemma counter_incremented_without_close :
  ~ (forall loggedOut op env w,
       reconnectAttempts (this w)
       < reconnectAttempts (this (step loggedOut op env w)) ->
       is_credential_close op = true).
Proof.
  intros H.
  specialize (H 401 OpStart offline (boot true)).
  vm_compute in H. specialize (H eq_refl). discriminate H.
Qed.

(** C3, amended: [reconnectAttempts] is a non-negative integer at every
    point of every execution.  One step either leaves it as it is, or adds
    exactly 1 - on a close event with code 401/403/405, or when [start()]
    fails while the counter is below the maximum - or sets it to 0 - on the
    ['open'] event, on a close event that is neither a rejection nor the
    logout, or in [logout()].  A credential rejection always adds 1, and
    each of the three resetting steps always gives 0. *)
Theorem reconnectAttempts_steps loggedOut op env w ops auth :
  let n := reconnectAttempts (this w) in
  let n' := reconnectAttempts (this (step loggedOut op env w)) in
  0 <= reconnectAttempts (this (run loggedOut ops env (boot auth))) /\
  (0 <= n -> 0 <= n') /\
  (n' = n \/
   (n' = n + 1 /\
    (is_credential_close op = true \/
     (is_start op = true /\ n < maxReconnectAttempts (this w)))) \/
   (n' = 0 /\
    (is_open op = true \/ is_transient_close loggedOut op = true
     \/ is_logout op = true))) /\
  (is_credential_close op = true -> n' = n + 1) /\
  (is_open op = true \/ is_transient_close loggedOut op = true
   \/ is_logout op = true -> n' = 0).
Proof.
  assert (Hstep : forall op w,
    let n := reconnectAttempts (this w) in
    let n' := reconnectAttempts (this (step loggedOut op env w)) in
    (n' = n \/
     (n' = n + 1 /\
      (is_credential_close op = true \/
       (is_start op = true /\ n < maxReconnectAttempts (this w)))) \/
     (n' = 0 /\
      (is_open op = true \/ is_transient_close loggedOut op = true
       \/ is_logout op = true))) /\
    (is_credential_close op = true -> n' = n + 1) /\
    (is_open op = true \/ is_transient_close loggedOut op = true
     \/ is_logout op = true -> n' = 0)).
  { clear. intros [| | |u|l|m|k] w; cbn [step].
    - pose proof (start_counter env w) as H. cbn in *.
      repeat split; [|discriminate|intros [|[|]]; discriminate].
      destruct H as [H|[H Hlt]]; [now left|right; left; auto].
    - rewrite keeps_stop.
      repeat split; [now left|discriminate|intros [|[|]]; discriminate].
    - rewrite logout_counter.
      repeat split; [right; right; auto|discriminate].
    - pose proof (connection_update_counter loggedOut u env w) as H.
      cbn in *. unfold is_credential_close, is_open, is_transient_close.
      destruct (WA.connection u) as [[| |]|].
      + destruct (credential_rejection (WA.statusCode u)); cbn.
        * repeat split; [right; left; auto|auto|intros [|[|]]; discriminate].
        * destruct (code_is (WA.statusCode u) loggedOut); cbn.
          -- repeat split; [now left|discriminate|intros [|[|]]; discriminate].
          -- repeat split; [right; right; auto|discriminate|auto].
      + repeat split; [right; right; auto|discriminate|auto].
      + repeat split; [now left|discriminate|intros [|[|]]; discriminate].
      + repeat split; [now left|discriminate|intros [|[|]]; discriminate].
    - rewrite keeps_on_messages_update.
      repeat split; [now left|discriminate|intros [|[|]]; discriminate].
    - rewrite keeps_on_messages_upsert.
      repeat split; [now left|discriminate|intros [|[|]]; discriminate].
    - pose proof (fire_counter k env w) as H. cbn in *.
      repeat split; [|discriminate|intros [|[|]]; discriminate].
      destruct H as [H|[H Hlt]]; [now left|right; left; auto]. }
  assert (Hnonneg : forall op w,
    0 <= reconnectAttempts (this w) ->
    0 <= reconnectAttempts (this (step loggedOut op env w))).
  { intros op0 w0 H0. destruct (Hstep op0 w0) as ([H|[[H _]|[H _]]] & _); lia. }
  cbn zeta. split; [|split; [apply Hnonneg|apply Hstep]].
  assert (Hrun : forall ops w, 0 <= reconnectAttempts (this w) ->
            0 <= reconnectAttempts (this (run loggedOut ops env w))).
  { clear ops. induction ops as [|o ops IH]; intros w0 H0; cbn [run]; auto. }
  apply Hrun. cbn. lia.
Qed.

(** ** logout (C6) *)

Example logout_on_fresh_bot :
  let w' := fst (logout calm (boot true)) in
  timers w' = [(cb_start, 2000)] /\ auth_baileys w' = false.
Proof. vm_compute. split; reflexivity. Qed.

(** C6, as stated, fails: [logout()] cancels nothing.  The source keeps no
    timer handle and calls [clearTimeout] nowhere, so a reconnect that a
    close event has scheduled is still pending after [logout()], next to
    the restart that [logout()] schedules itself. *)
Lemma logout_keeps_pending_reconnect :
  ~ (forall loggedOut env w,
       let pending := step loggedOut (OpConnectionUpdate (closed 408)) env w in
       timers (fst (logout env pending)) = [(cb_start, 2000)]).
Proof.
  intros H. specialize (H 401 calm (boot true)).
  vm_compute in H. discriminate H.
Qed.

(** C6, amended: [logout()] clears the pairing challenge ([currentQR]),
    sets [reconnectAttempts] to 0, releases the guard and issues the
    removal of the credentials exactly once, and only then schedules the
    restart (2000 ms later) that obtains a fresh challenge; it returns
    [true].  It does not cancel a reconnect that is already scheduled: the
    timers pending before are still pending after. *)
Theorem logout_resets_then_restarts env w :
  let w' := fst (logout env w) in
  snd (logout env w) = Ok true /\
  currentQR (this w') = null /\
  reconnectAttempts (this w') = 0 /\
  isReconnecting (this w') = false /\
  connectionStatus (this w') = disconnected /\
  timers w' = timers w ++ [(cb_start, 2000)] /\
  (exists before between,
     since w w' = before ++ ev FsRm :: between ++ [ev (SetTimeout cb_start 2000)]
     /\ count is_purge (before ++ between) = 0%nat
     /\ count is_timeout (before ++ between) = 0%nat) /\
  ((forall h, env _ h FsRm = Ok tt) -> auth_baileys w' = false).
Proof.
  unfold logout, clearSession. run_step.
  destruct (sock (this w)); cbn; repeat ask.
  all: repeat match goal with |- _ /\ _ => split end; try reflexivity.
  all: try (intros Hok; rewrite Hok in *; discriminate).
  all: trace_norm.
  all: first
         [ eexists [_], [_]; split; [reflexivity|split; reflexivity]
         | eexists [_; _], [_]; split; [reflexivity|split; reflexivity]
         | eexists [_; _; _], [_]; split; [reflexivity|split; reflexivity] ].
Qed.

(** ** StatusTracker (C9) *)

Section StatusTracker.






End StatusTracker.

Example read_delivered_sent_m1 :
  statuses
    (fst (on_messages_update [status_of_m1 4; status_of_m1 2; status_of_m1 1]
            calm (boot true))) !! lit "m1" = Some read.
Proof. vm_compute. reflexivity. Qed.



(** ** Dispatch: running the [messages.upsert] handler *)

Ltac answer_ai :=
  match goal with
  | H : forall h msgs, ?e _ h (GenerateResponse msgs) = _
    |- context [?e ?X ?h0 (GenerateResponse ?l)] => rewrite (H h0 l); cbn
  end.

Ltac branch :=
  match goal with
  | |- context [if ?b then _ else _] =>
      let H := fresh "Hif" in destruct b eqn:H; cbn
  end.

(** Look at what was caught, where [handleError] reads its [message]. *)
Ltac caught :=
  match goal with
  | |- context [match ?t with raised _ => _ | a_value => _ end] =>
      is_var t; destruct t; cbn
  end.

Ltac units := repeat match goal with x : unit |- _ => destruct x end.

(** Take an [inbound] event up to the point where the handler looks at the
    kind of chat. *)
Ltac enter_dispatch Hin :=
  let Hhead := fresh "Hhead" in
  let Hcontent := fresh "Hcontent" in
  let Hself := fresh "Hself" in
  let Hfrom := fresh "Hfrom" in
  let Htext := fresh "Htext" in
  let Hblank := fresh "Hblank" in
  destruct Hin as (Hhead & Hcontent & Hself & Hfrom & Htext & Hblank);
  unfold on_messages_upsert, dispatch, gate, reply, processMessage,
    handleError, sender_of, ai_allowed in *;
  match type of Hhead with
  | head (WA.messages ?m) = _ =>
      let rest := fresh "rest" in
      destruct (WA.messages m) as [|? rest]; [discriminate Hhead|];
      cbn in Hhead; injection Hhead as ->
  end;
  rewrite Hcontent; run_step; rewrite Hself, Hfrom; cbn;
  rewrite Htext, Hblank; cbn.

(** One cycle of the handler, for arbitrary collaborators: how it can end,
    and what it can cost. *)
Lemma dispatch_cycle m env w :
  let seg := since w (fst (on_messages_upsert m env w)) in
  (WA.messages m <> [] ->
   (snd (on_messages_upsert m env w) = Ok tt \/
    snd (on_messages_upsert m env w) = Throw (TypeError "undefined" "includes"))
   /\ (throws_errors env -> snd (on_messages_upsert m env w) = Ok tt)) /\
  (count is_ai seg <= 1)%nat /\
  (count is_mode_write seg <= 1)%nat /\
  (count is_send seg <= 2)%nat /\
  (nominal env logging -> nominal env sending -> (count is_send seg <= 1)%nat).
Proof.
  unfold on_messages_upsert, dispatch, gate, reply, processMessage, handleError.
  destruct (WA.messages m) as [|msg rest]; run_step.
  { repeat split; try congruence; trace_norm; lia. }
  destruct (WA.message msg) as [content|]; run_step.
  2: { repeat split; auto; unfold since; rewrite skipn_all; cbn; lia. }
  destruct (WA.fromMe (WA.key msg)); cbn.
  { repeat split; auto; trace_norm; lia. }
  destruct (WA.remoteJid (WA.key msg)) as [| |from]; cbn.
  1,2: ask; (repeat split; auto; trace_norm; try lia).
  destruct (negb (truthy (val (text_of content)))
            || is_empty (trim (text_of content))); cbn.
  { repeat split; auto; trace_norm; lia. }
  all: repeat first [branch | caught | ask]; units.
  all: repeat match goal with |- _ /\ _ => split end;
       try (intros _; split; [auto|]);
       try (trace_norm; lia).
  all: try (intros Herrors;
            match goal with
            | H : _ _ ?h ?c = Throw a_value |- _ =>
                destruct (Herrors _ h c _ H) as [? ?]; discriminate
            end).
  all: try reflexivity.
  all: intros Hlog Hsend; exfalso;
       match goal with
       | H : _ _ ?h ?c = Throw _ |- _ =>
           first [ destruct (Hlog _ c h eq_refl) as [? ?]
                 | destruct (Hsend _ c h eq_refl) as [? ?] ]; congruence
       end.
Qed.

(** ** The mode gate (C7) *)

Example human_mode_is_silent :
  calls (trace (fst (on_messages_upsert (direct_text "Hola")
                       (script true false (Ok (lit "Hola"))) (boot true))))
  = [ev (LoggerLog cliente (lit "Hola") (Some (lit "5215512345678"))
           (Some (lit "Ana")) (Some false) undefined);
     ev (IsHumanMode (lit "5215512345678"));
     ev (IsSupportMode (lit "5215512345678"));
     ev (LoggerLog SYSTEM
           (lit "Mensaje ignorado - Modo HUMANO activo para Ana (5215512345678)")
           None None None undefined)].
Proof. vm_compute. reflexivity. Qed.

(** The sample event gets past the first filters. *)
Lemma direct_text_Hola_inbound :
  inbound (direct_text "Hola")
    (WA.mkMessage
       (WA.mkKey false (val (lit "5215512345678@s.whatsapp.net")) undefined
          (val (lit "3A01")))
       (Some (WA.mkContent (val (lit "Hola")) undefined)) (val (lit "Ana")))
    (WA.mkContent (val (lit "Hola")) undefined)
    (lit "5215512345678@s.whatsapp.net").
Proof. repeat split. Qed.



(** The sample collaborators meet the hypotheses used below. *)
Lemma script_nominal human support ai ok :
  (forall X (c : Call X), ok X c = true -> is_ai (ev c) = false) ->
  nominal (script human support ai) ok.
Proof.
  intros Hok X c h Hc. specialize (Hok X c Hc).
  destruct c; cbn in *; try discriminate Hok; eauto.
Qed.


Lemma before_ai_not_ai X (c : Call X) :
  before_ai X c = true -> is_ai (ev c) = false.
Proof. destruct c; cbn; congruence. Qed.

Lemma sending_not_ai X (c : Call X) : sending X c = true -> is_ai (ev c) = false.
Proof. destruct c; cbn; congruence. Qed.


(** ** One AI call per event (C8) *)

Lemma since_extends w w1 w2 :
  extends w w1 -> extends w1 w2 -> since w w2 = since w w1 ++ since w1 w2.
Proof.
  intros [s1 H1] [s2 H2]. unfold since.
  rewrite H2, H1, <- app_assoc, !skipn_prefix.
  now rewrite app_assoc, skipn_prefix.
Qed.

Lemma count_app p l1 l2 : count p (l1 ++ l2) = (count p l1 + count p l2)%nat.
Proof. unfold count. now rewrite List.filter_app, List.length_app. Qed.

Lemma run_upserts_extend loggedOut ms env : forall w,
  extends w (run loggedOut (List.map OpMessagesUpsert ms) env w).
Proof.
  induction ms as [|m ms IH]; intros w; cbn [List.map run step].
  - apply frame_refl.
  - eapply frame_trans; [|apply IH].
    apply (respects_on_messages_upsert extends).
Qed.

(** One event that reaches the AI: the AI is asked once, whatever it
    answers and whatever happens afterwards. *)
Lemma one_ai_call m env w :
  nominal env before_ai ->
  reaches_ai env m ->
  count is_ai (since w (fst (on_messages_upsert m env w))) = 1%nat.
Proof.
  intros Hnominal (msg & content & from & Hin & Hallowed).
  enter_dispatch Hin.
  destruct Hallowed as (Hhuman & Hsupport & Henabled).
  destruct (endsWith suffix_group from) eqn:Hgroup; cbn.
  all: repeat first [answer | branch | caught | ask].
  all: trace_norm; reflexivity.
Qed.

Example hola_asks_the_ai_once :
  count is_ai (trace (fst (on_messages_upsert (direct_text "Hola") calm (boot true))))
  = 1%nat.
Proof. vm_compute. reflexivity. Qed.

Lemma direct_text_Hola_reaches_ai : reaches_ai calm (direct_text "Hola").
Proof.
  eexists _, _, _. split; [exact direct_text_Hola_inbound|].
  repeat split.
Qed.

(** C8, as stated, fails: between the filter chain and the AI call the
    handler appends the user's message to the session.  When that call
    fails, an event that passed the filter chain asks the AI zero times
    (and gets the apology). *)
Lemma failed_session_write_skips_the_ai :
  ~ (forall m env w,
       reaches_ai env m ->
       count is_ai (since w (fst (on_messages_upsert m env w))) = 1%nat).
Proof.
  intros H.
  assert (Hreach : reaches_ai session_store_down (direct_text "Hola")).
  { eexists _, _, _. split; [exact direct_text_Hola_inbound|]. repeat split. }
  specialize (H (direct_text "Hola") session_store_down (boot true) Hreach).
  vm_compute in H. discriminate H.
Qed.

(** C8, amended: every [messages.upsert] event makes the handler call
    [aiService.generateResponse] at most once, whatever the collaborators
    do, so a run of [k] events asks the AI at most [k] times.  An event
    that passes the filter chain - a message with a text, not from the bot,
    identity in AI mode, audience enabled - makes it call exactly once,
    provided the collaborators called before the AI return; and it does so
    in any state of the world, so that a run of [k] such events asks the AI
    [k] times: nothing is batched, merged or held back. *)
Theorem one_ai_round_trip_per_event loggedOut m ms env w :
  (count is_ai (since w (fst (on_messages_upsert m env w))) <= 1)%nat /\
  (count is_ai (since w (run loggedOut (List.map OpMessagesUpsert ms) env w))
   <= List.length ms)%nat /\
  (nominal env before_ai ->
   (reaches_ai env m ->
    count is_ai (since w (fst (on_messages_upsert m env w))) = 1%nat) /\
   (Forall (reaches_ai env) ms ->
    count is_ai (since w (run loggedOut (List.map OpMessagesUpsert ms) env w))
    = List.length ms)).
Proof.
  split; [apply (dispatch_cycle m env w)|]. split.
  - clear m. revert w.
    induction ms as [|m ms IH]; intros w; cbn [List.map run step List.length].
    + unfold since. now rewrite skipn_all.
    + rewrite (since_extends w (fst (on_messages_upsert m env w))).
      * rewrite count_app.
        pose proof (IH (fst (on_messages_upsert m env w))) as Hrest.
        destruct (dispatch_cycle m env w) as (_ & Hone & _).
        cbv zeta in Hone. lia.
      * apply (respects_on_messages_upsert extends).
      * apply run_upserts_extend.
  - intros Hnominal. split; [now apply one_ai_call|].
    intros Hms. clear m. revert w.
    induction Hms as [|m ms Hm Hms IH]; intros w; cbn [List.map run step].
    + unfold since. now rewrite skipn_all.
    + rewrite (since_extends w (fst (on_messages_upsert m env w))).
      * rewrite count_app, IH, (one_ai_call m env w Hnominal Hm). reflexivity.
      * apply (respects_on_messages_upsert extends).
      * apply run_upserts_extend.
Qed.

Lemma three_times_Hola_reach_ai :
  Forall (reaches_ai calm)
    [direct_text "Hola"; direct_text "Hola"; direct_text "Hola"].
Proof. repeat constructor; exact direct_text_Hola_reaches_ai. Qed.

Lemma one_ai_round_trip_per_event_witness :
  count is_ai
    (since (boot true)
       (run 401 (List.map OpMessagesUpsert
                   [direct_text "Hola"; direct_text "Hola"; direct_text "Hola"])
          calm (boot true))) = 3%nat.
Proof.
  destruct (one_ai_round_trip_per_event 401 (direct_text "Hola")
              [direct_text "Hola"; direct_text "Hola"; direct_text "Hola"]
              calm (boot true)) as (_ & _ & Hexact).
  destruct (Hexact (script_nominal _ _ _ _ before_ai_not_ai)) as [_ Hrun].
  exact (Hrun three_times_Hola_reach_ai).
Defined.

(** ** Failure of the AI (C5) *)

Example ai_timeout_trace :
  calls (trace (fst (on_messages_upsert (direct_text "Hola")
                       (script false false (Throw (mkError (lit "timeout"))))
                       (boot true))))
  = [ev (LoggerLog cliente (lit "Hola") (Some (lit "5215512345678"))
           (Some (lit "Ana")) (Some false) undefined);
     ev (IsHumanMode (lit "5215512345678"));
     ev (IsSupportMode (lit "5215512345678"));
     ev IsIndividualAIEnabled;
     ev (HasActiveFollowUp (lit "5215512345678"));
     ev (AddMessage (lit "5215512345678") user (lit "Hola")
           (lit "5215512345678@s.whatsapp.net"));
     ev (GetPrompt false);
     ev (GetMessages (lit "5215512345678") (lit "5215512345678@s.whatsapp.net"));
     ev (GenerateResponse [mkChat system (lit "Eres un asistente de ventas.")]);
     ev (SendMessage (val (lit "5215512345678@s.whatsapp.net")) apology);
     ev (LoggerLog ERROR (lit "timeout") (Some (lit "5215512345678"))
           None None undefined)].
Proof. vm_compute. reflexivity. Qed.

Example api_key_error_is_not_the_apology :
  errorMessage (mkError (lit "Invalid API key")) = configuration_notice.
Proof. vm_compute. reflexivity. Qed.

(** C5, as stated, fails: the cycle does not leave the conversation
    session as it was.  [processMessage] appends the user's message to the
    session before it asks the AI, and nothing takes it back when the AI
    fails. *)
Lemma ai_failure_changes_session :
  ~ (forall m (env : Env) w (error : Error),
       (forall h msgs, env _ h (GenerateResponse msgs) = Throw error) ->
       count is_session_write (since w (fst (on_messages_upsert m env w)))
       = 0%nat).
Proof.
  intros H.
  specialize (H (direct_text "Hola")
                (script false false (Throw (mkError (lit "timeout"))))
                (boot true) (mkError (lit "timeout")) (fun _ _ => eq_refl)).
  vm_compute in H. discriminate H.
Qed.

(** C5, amended: when the AI raises an error in a dispatch cycle that has
    reached it, the handler ends normally; exactly one reply is sent, to the
    chat the message came from, with the text [errorMessage] chooses: the
    generic apology unless the error text contains ['autenticacion'] (with
    its accent) or ['API key']; the error is written to the console, and
    its message is logged as an ERROR entry once the reply has been sent;
    no mode is written.  The session is written exactly once: the user's
    message, appended before the AI was asked, stays in it. *)
Theorem ai_failure_sends_one_reply m msg content from env w (error : Error) :
  inbound m msg content from ->
  nominal env before_ai ->
  ai_allowed env (sender_of msg from) from ->
  (forall h msgs, env _ h (GenerateResponse msgs) = Throw error) ->
  let w' := fst (on_messages_upsert m env w) in
  let userId := sender_of msg from in
  snd (on_messages_upsert m env w) = Ok tt /\
  List.filter is_send (since w w')
  = [ev (SendMessage (val from) (errorMessage error))] /\
  (includes autenticacion (message error) = false ->
   includes (lit "API key") (message error) = false ->
   errorMessage error = apology) /\
  In (ev (Console (ErrorProcessingMessage error))) (since w w') /\
  (nominal env sending ->
   List.filter (is_log ERROR) (since w w')
   = [ev (LoggerLog ERROR (message error) (Some (extractUserId (val from)))
            None None undefined)]) /\
  count is_mode_write (since w w') = 0%nat /\
  List.filter is_session_write (since w w')
  = [ev (AddMessage userId user (text_of content) from)].
Proof.
  intros Hin Hnominal Hallowed Hai.
  assert (Hnotice : includes autenticacion (message error) = false ->
                    includes (lit "API key") (message error) = false ->
                    errorMessage error = apology).
  { intros H1 H2. unfold errorMessage. now rewrite H1, H2. }
  enter_dispatch Hin.
  destruct Hallowed as (Hhuman & Hsupport & Henabled).
  destruct (endsWith suffix_group from) eqn:Hgroup; cbn.
  all: repeat first [answer | answer_ai | branch | ask].
  all: repeat match goal with |- _ /\ _ => split end;
       try exact Hnotice; try (trace_norm; reflexivity).
  all: try (trace_norm; repeat first [left; reflexivity | right]).
  all: intros Hsend;
       match goal with
       | Hanswer : _ _ ?h ?c = Throw _ |- _ =>
           destruct (Hsend _ c h eq_refl) as [r Hr]; congruence
       end.
Qed.

Lemma ai_failure_sends_one_reply_witness :
  List.filter is_send
    (since (boot true)
       (fst (on_messages_upsert (direct_text "Hola")
               (script false false (Throw (mkError (lit "timeout"))))
               (boot true))))
  = [ev (SendMessage (val (lit "5215512345678@s.whatsapp.net"))
           (errorMessage (mkError (lit "timeout"))))].
Proof.
  exact (proj1 (proj2
    (ai_failure_sends_one_reply (direct_text "Hola") _ _ _
       (script false false (Throw (mkError (lit "timeout")))) (boot true)
       (mkError (lit "timeout"))
       direct_text_Hola_inbound
       (script_nominal _ _ _ _ before_ai_not_ai)
       (conj (fun _ => eq_refl) (conj (fun _ => eq_refl) (fun _ => eq_refl)))
       (fun _ _ => eq_refl)))).
Defined.

(** ** The hand-off marker (C4) *)

(** When the AI answer contains the marker and no collaborator fails, the
    mode of the identity is set to ['support'] once, the change is logged
    once, and the reply is the answer with its FIRST marker removed,
    trimmed. *)
Lemma handoff_sets_mode_and_logs m msg content from env w response :
  inbound m msg content from ->
  nominal env any_call ->
  ai_allowed env (sender_of msg from) from ->
  (forall h msgs, env _ h (GenerateResponse msgs) = Ok response) ->
  includes marker response = true ->
  let seg := since w (fst (on_messages_upsert m env w)) in
  let userId := sender_of msg from in
  List.filter is_mode_write seg = [ev (SetMode userId (lit "support"))] /\
  List.filter (is_log SYSTEM) seg
  = [ev (LoggerLog SYSTEM (support_activated_note userId)
           None None None undefined)] /\
  List.filter is_send seg
  = [ev (SendMessage (val from) (trim (replace marker [] response)))].
Proof.
  intros Hin Hnominal Hallowed Hai Hmarker. enter_dispatch Hin.
  destruct Hallowed as (Hhuman & Hsupport & Henabled).
  destruct (endsWith suffix_group from) eqn:Hgroup; cbn.
  all: repeat first [answer_ai | answer | rewrite Hmarker; cbn | branch].
  all: repeat split; trace_norm; reflexivity.
Qed.

(** C4 fails on the code: [aiResponse.replace('{{ACTIVAR_SOPORTE}}', '')]
    removes one occurrence of the marker only.  For an AI answer that
    carries the marker twice, the mode is set to ['support'] and the change
    is logged once, as the claim says, but the reply that is sent still
    contains the marker. *)
Theorem second_marker_reaches_the_customer :
  let env := script false false (Ok answer_with_two_markers) in
  let seg := trace (fst (on_messages_upsert asks_for_person env (boot true))) in
  let reply := lit "Te comunico con soporte.  {{ACTIVAR_SOPORTE}}" in
  includes marker answer_with_two_markers = true /\
  List.filter is_mode_write seg
  = [ev (SetMode (lit "5215512345678") (lit "support"))] /\
  count (is_log SYSTEM) seg = 1%nat /\
  List.filter is_send seg
  = [ev (SendMessage (val (lit "5215512345678@s.whatsapp.net")) reply)] /\
  includes marker reply = true.
Proof. vm_compute. repeat split. Qed.

(** * More of the bot *)


Lemma setup_not_ai X (c : Call X) : setup X c = true -> is_ai (ev c) = false.
Proof. destruct c; cbn; congruence. Qed.

Lemma arming_not_ai X (c : Call X) : arming X c = true -> is_ai (ev c) = false.
Proof. destruct c; cbn; congruence. Qed.

Lemma script_answers human support answer :
  nominal (script human support (Ok answer)) any_call.
Proof. intros X c h _. destruct c; cbn; eauto. Qed.

(** ** start() *)

(** X1: [start()] is single-flight.  When the guard is free and the set-up
    calls return, [start()] creates the socket, keeps the guard, schedules
    nothing and leaves the counter alone; a second [start()] in that state
    only prints a line, so two calls in a row create one socket. *)
Theorem start_is_single_flight loggedOut env w :
  nominal env setup ->
  isReconnecting (this w) = false ->
  let w1 := fst (start env w) in
  snd (start env w) = Ok tt /\
  sock (this w1) = Some WASocket /\
  isReconnecting (this w1) = true /\
  reconnectAttempts (this w1) = reconnectAttempts (this w) /\
  timers w1 = timers w /\
  auth_baileys w1 = true /\
  start env w1 = (record (Console AlreadyReconnecting) w1, Ok tt) /\
  count is_socket (since w (run loggedOut [OpStart; OpStart] env w)) = 1%nat.
Proof.
  intros Hsetup Hguard. cbn [run step]. unfold start. run_step.
  rewrite Hguard. cbn. answer.
  destruct (auth_baileys w) eqn:Hauth; cbn; repeat answer.
  all: repeat split; try assumption; try (trace_norm; reflexivity).
Qed.

Lemma start_is_single_flight_witness :
  count is_socket
    (since (boot false) (run 401 [OpStart; OpStart] calm (boot false))) = 1%nat.
Proof.
  destruct (start_is_single_flight 401 calm (boot false)
              (script_nominal _ _ _ _ setup_not_ai) eq_refl)
    as (_ & _ & _ & _ & _ & _ & _ & Hone).
  exact Hone.
Defined.



(** A [start()] whose set-up fails: the guard is released, and a retry is
    scheduled, once, only while the counter is below the maximum. *)
Lemma failing_start env w :
  setup_fails env ->
  isReconnecting (this w) = false ->
  let w' := fst (start env w) in
  let n := reconnectAttempts (this w) in
  let retry := n <? maxReconnectAttempts (this w) in
  isReconnecting (this w') = false /\
  maxReconnectAttempts (this w') = maxReconnectAttempts (this w) /\
  sock (this w') = sock (this w) /\
  reconnectAttempts (this w') = (if retry then n + 1 else n) /\
  timers w' = timers w ++ (if retry then [(cb_start, 5000)] else []) /\
  count is_timeout (trace w')
  = (count is_timeout (trace w) + if retry then 1 else 0)%nat.
Proof.
  intros [Hkey Hfetch] Hguard. unfold start. run_step. rewrite Hguard. cbn.
  rewrite Hkey. cbn.
  destruct (auth_baileys w); cbn.
  all: repeat first
         [ match goal with
           | |- context [?e ?X ?h FetchLatestBaileysVersion] =>
               let x := fresh in
               let Hx := fresh in
               destruct (Hfetch h) as [x Hx]; rewrite Hx; cbn
           end
         | ask ].
  all: destruct (reconnectAttempts (this w) <? maxReconnectAttempts (this w));
       cbn; repeat split; try (now rewrite app_nil_r).
  all: unfold count; rewrite ?List.filter_app, ?List.length_app; cbn; lia.
Qed.

Lemma fire_nothing_pending loggedOut env w :
  timers w = [] -> step loggedOut (OpFire 0) env w = w.
Proof. intros H. cbn. unfold fire. now rewrite H. Qed.

(** X3: the retries of [start()] are bounded.  With a set-up that always
    fails inside the [try] block, a fresh bot that is started and whose
    timers fire one after the other schedules exactly 3 retries: after
    [start()] and [k >= 3] firings the counter is 3, the guard is free, no
    socket exists and no timer is pending. *)
Theorem failing_setup_is_retried_three_times loggedOut env auth (k : nat) :
  setup_fails env ->
  (3 <= k)%nat ->
  let w' := run loggedOut (OpStart :: repeat (OpFire 0%nat) k) env (boot auth) in
  isReconnecting (this w') = false /\
  sock (this w') = None /\
  reconnectAttempts (this w') = 3 /\
  timers w' = [] /\
  count is_timeout (trace w') = 3%nat.
Proof.
  intros Hfails Hk.
  assert (Hfire : forall w n,
    isReconnecting (this w) = false -> maxReconnectAttempts (this w) = 3 ->
    sock (this w) = None -> reconnectAttempts (this w) = n ->
    timers w = [(cb_start, 5000)] -> count is_timeout (trace w) = Z.to_nat n ->
    1 <= n <= 3 ->
    let w' := step loggedOut (OpFire 0) env w in
    isReconnecting (this w') = false /\ maxReconnectAttempts (this w') = 3 /\
    sock (this w') = None /\
    reconnectAttempts (this w') = Z.min (n + 1) 3 /\
    timers w' = (if n <? 3 then [(cb_start, 5000)] else []) /\
    count is_timeout (trace w') = Z.to_nat (Z.min (n + 1) 3)).
  { intros w n Hg Hmax Hsock Hn Ht Hc Hrange. cbn [step]. unfold fire.
    rewrite Ht. cbn [nth_error firstn skipn app].
    match goal with |- context [start env ?w0] =>
      destruct (failing_start env w0 Hfails Hg) as (H1 & H2 & H3 & H4 & H5 & H6)
    end.
    cbn [this timers trace] in *. rewrite Hmax, Hn in *.
    rewrite H1, H2, H3, H4, H5, H6, Hsock, Hc.
    destruct (n <? 3) eqn:Hlt; repeat split; lia. }
  destruct (failing_start env (boot auth) Hfails eq_refl)
    as (H1 & H2 & H3 & H4 & H5 & H6).
  cbn [run]. cbn [step].
  set (w1 := fst (start env (boot auth))) in *.
  cbn in H2, H3, H4, H5, H6.
  destruct (Hfire w1 1 H1 H2 H3 H4 H5 H6 ltac:(lia))
    as (A1 & A2 & A3 & A4 & A5 & A6).
  set (w2 := step loggedOut (OpFire 0) env w1) in *.
  destruct (Hfire w2 2 A1 A2 A3 A4 A5 A6 ltac:(lia))
    as (B1 & B2 & B3 & B4 & B5 & B6).
  set (w3 := step loggedOut (OpFire 0) env w2) in *.
  destruct (Hfire w3 3 B1 B2 B3 B4 B5 B6 ltac:(lia))
    as (C1 & C2 & C3 & C4 & C5 & C6).
  set (w4 := step loggedOut (OpFire 0) env w3) in *.
  replace k with (3 + (k - 3))%nat by lia.
  rewrite repeat_app. cbn [repeat app run]. fold w2 w3 w4.
  assert (Hrest : forall j, run loggedOut (repeat (OpFire 0%nat) j) env w4 = w4).
  { induction j as [|j IH]; cbn [repeat run]; [reflexivity|].
    now rewrite (fire_nothing_pending loggedOut env w4 C5). }
  rewrite Hrest. repeat split; assumption.
Qed.

Lemma offline_setup_fails : setup_fails offline.
Proof. split; intros h; [reflexivity|eexists; reflexivity]. Qed.

Lemma failing_setup_is_retried_three_times_witness :
  (3 <= 5)%nat /\
  timers (run 401 (OpStart :: repeat (OpFire 0%nat) 5) offline (boot true)) = [].
Proof.
  assert (Hk : (3 <= 5)%nat) by lia. split; [exact Hk|].
  destruct (failing_setup_is_retried_three_times 401 offline true 5
              offline_setup_fails Hk) as (_ & _ & _ & Hnone & _).
  exact Hnone.
Defined.

(** ** The connection handler *)

(** X4: the ['open'] event.  Whatever else the update carries, the bot ends
    connected, with no pairing challenge, counter 0 and the guard free; the
    start-up entry is logged once, no timer is scheduled, the credentials
    stay; and when the two arming calls return, the handler ends normally
    after arming the session clean-up timer, then the follow-up timer. *)
Theorem open_event_connects loggedOut update env w :
  WA.connection update = Some WA.open ->
  let w' := fst (on_connection_update loggedOut update env w) in
  connectionStatus (this w') = connected /\
  currentQR (this w') = null /\
  reconnectAttempts (this w') = 0 /\
  isReconnecting (this w') = false /\
  sock (this w') = sock (this w) /\
  timers w' = timers w /\
  auth_baileys w' = auth_baileys w /\
  count (is_log SYSTEM) (since w w') = 1%nat /\
  (nominal env arming ->
   snd (on_connection_update loggedOut update env w) = Ok tt /\
   List.filter is_arming (since w w')
   = [ev StartCleanupTimer; ev StartFollowUpTimer]).
Proof.
  intros Hopen. unfold on_connection_update. rewrite Hopen.
  destruct (truthy (WA.qr update)); run_step.
  all: repeat match goal with |- _ /\ _ => split end; try reflexivity.
  all: try (repeat ask; trace_norm; reflexivity).
  all: intros Harming; repeat answer; units;
       split; [reflexivity|trace_norm; reflexivity].
Qed.

Lemma open_event_connects_witness :
  connectionStatus (this (fst (on_connection_update 401 opened calm (boot true))))
  = connected.
Proof.
  destruct (open_event_connects 401 opened calm (boot true) eq_refl)
    as (Hconnected & _).
  exact Hconnected.
Defined.

(** X5: the branch of the close handler that ends the supervision is dead
    when the logout code is one of 401, 403, 405 - and baileys'
    [DisconnectReason.loggedOut] is 401.  Then a close event that carries
    the logout code is handled as a rejected session: the counter goes up
    by one and, while it does not exceed the maximum, the removal of the
    credentials is issued and a reconnect is scheduled 5000 ms later.  And
    every close event, whatever its code, either schedules one reconnect or
    leaves the counter above the maximum. *)
Theorem logout_code_is_handled_as_rejection loggedOut update env w :
  credential_rejection (Some loggedOut) = true ->
  WA.connection update = Some WA.close ->
  let w' := fst (on_connection_update loggedOut update env w) in
  (code_is (WA.statusCode update) loggedOut = true ->
   reconnectAttempts (this w') = reconnectAttempts (this w) + 1 /\
   (reconnectAttempts (this w') <= maxReconnectAttempts (this w') ->
    count is_purge (since w w') = 1%nat /\
    timers w' = timers w ++ [(cb_start, 5000)])) /\
  (timers w' = timers w ++ [(cb_start, 5000)] \/
   (timers w' = timers w /\
    maxReconnectAttempts (this w') < reconnectAttempts (this w'))).
Proof.
  intros Hcode Hclose.
  assert (Hsame : code_is (WA.statusCode update) loggedOut = true ->
                  credential_rejection (WA.statusCode update) = true).
  { unfold code_is. destruct (WA.statusCode update) as [c|]; [|discriminate].
    intros Hc. apply Z.eqb_eq in Hc. now subst c. }
  unfold on_connection_update, clearSession.
  rewrite Hclose.
  destruct (credential_rejection (WA.statusCode update)) eqn:Hrejection;
    unfold credential_rejection in Hrejection.
  - destruct (truthy (WA.qr update)); run_step; rewrite Hrejection; cbn.
    all: destruct (maxReconnectAttempts (this w) <? reconnectAttempts (this w) + 1)
           eqn:Hmax; cbn; [apply Z.ltb_lt in Hmax|apply Z.ltb_ge in Hmax].
    all: try ask.
    all: split; [intros _; split; [reflexivity|]; intros Hle;
                 try lia; split; trace_norm; reflexivity|].
    all: first [left; reflexivity | right; split; [reflexivity|exact Hmax]].
  - destruct (code_is (WA.statusCode update) loggedOut) eqn:Hout;
      [specialize (Hsame eq_refl); discriminate|].
    destruct (truthy (WA.qr update)); run_step; rewrite Hrejection; cbn.
    all: split; [discriminate|left; reflexivity].
Qed.

Lemma logout_code_is_handled_as_rejection_witness :
  timers (fst (on_connection_update 401 (closed 401) calm (boot true)))
  = [(cb_start, 5000)].
Proof.
  destruct (logout_code_is_handled_as_rejection 401 (closed 401) calm
              (boot true) eq_refl eq_refl) as [Hlogout _].
  destruct (Hlogout eq_refl) as [_ Hretry].
  destruct (Hretry ltac:(vm_compute; discriminate)) as [_ Htimer].
  exact Htimer.
Defined.

(** ** Invariants of the bot's fields *)

Lemma start_fields env w :
  let b := this w in
  let b' := this (fst (start env w)) in
  currentQR b' = currentQR b /\
  connectionStatus b' = connectionStatus b /\
  maxReconnectAttempts b' = maxReconnectAttempts b /\
  (sock b <> None -> sock b' <> None).
Proof.
  unfold start. run_step.
  destruct (isReconnecting (this w)); cbn; [repeat split; auto|].
  ask; [|repeat split; auto].
  destruct (auth_baileys w); cbn; repeat ask.
  all: try (destruct (reconnectAttempts (this w) <? maxReconnectAttempts (this w)); cbn).
  all: repeat split; auto; discriminate.
Qed.

Lemma fire_fields k env w :
  let b := this w in
  let b' := this (fst (fire k env w)) in
  currentQR b' = currentQR b /\
  connectionStatus b' = connectionStatus b /\
  maxReconnectAttempts b' = maxReconnectAttempts b /\
  (sock b <> None -> sock b' <> None).
Proof.
  unfold fire. destruct (nth_error (timers w) k) as [[[] ms]|]; [|repeat split; auto].
  apply (start_fields env
           {| this := this w; trace := trace w;
              timers := firstn k (timers w) ++ skipn (S k) (timers w);
              auth_baileys := auth_baileys w; statuses := statuses w |}).
Qed.

Lemma logout_fields env w :
  let b := this w in
  let b' := this (fst (logout env w)) in
  currentQR b' = null /\
  connectionStatus b' = disconnected /\
  maxReconnectAttempts b' = maxReconnectAttempts b /\
  sock b' = sock b.
Proof.
  unfold logout, clearSession. run_step.
  destruct (sock (this w)) eqn:Hsock; cbn; repeat ask; repeat split; auto.
Qed.

Lemma connection_update_fields loggedOut update env w :
  let b := this w in
  let b' := this (fst (on_connection_update loggedOut update env w)) in
  maxReconnectAttempts b' = maxReconnectAttempts b /\
  sock b' = sock b /\
  (qr_hidden b -> qr_hidden b').
Proof.
  unfold on_connection_update, clearSession, qr_hidden.
  destruct (WA.connection update) as [[| |]|];
    destruct (truthy (WA.qr update)); run_step.
  all: repeat first [branch | caught | ask].
  all: repeat split; auto; cbn; try discriminate.
Qed.

(** X6: the bot never holds a pairing challenge while it is connected:
    every step keeps "connected implies [currentQR] is null", and the fresh
    bot satisfies it, so it holds at every point of every execution. *)
Theorem pairing_challenge_hidden_when_connected loggedOut op env w ops auth :
  (qr_hidden (this w) -> qr_hidden (this (step loggedOut op env w))) /\
  qr_hidden (this (run loggedOut ops env (boot auth))).
Proof.
  assert (Hstep : forall op w,
            qr_hidden (this w) -> qr_hidden (this (step loggedOut op env w))).
  { clear. intros [| | |u|l|m|k] w H; cbn [step].
    - destruct (start_fields env w) as (Hq & Hs & _). unfold qr_hidden in *.
      cbv zeta in Hq, Hs. rewrite Hq, Hs. exact H.
    - now rewrite keeps_stop.
    - destruct (logout_fields env w) as (Hq & _). cbv zeta in Hq.
      intros _. exact Hq.
    - now apply connection_update_fields.
    - now rewrite keeps_on_messages_update.
    - now rewrite keeps_on_messages_upsert.
    - destruct (fire_fields k env w) as (Hq & Hs & _). unfold qr_hidden in *.
      cbv zeta in Hq, Hs. rewrite Hq, Hs. exact H. }
  split; [apply Hstep|].
  assert (Hrun : forall ops w, qr_hidden (this w) ->
                   qr_hidden (this (run loggedOut ops env w))).
  { clear ops. induction ops as [|o ops IH]; intros w0 H0; cbn [run]; auto. }
  apply Hrun. intros H. discriminate H.
Qed.

(** X7: no step writes [maxReconnectAttempts], so it is 3 at every point of
    every execution of a fresh bot; and no step takes the socket away: once
    [this.sock] is set it stays set, also through [stop()] and [logout()]. *)
Theorem maximum_and_socket_are_kept loggedOut op env w ops auth :
  maxReconnectAttempts (this (step loggedOut op env w))
  = maxReconnectAttempts (this w) /\
  (sock (this w) <> None -> sock (this (step loggedOut op env w)) <> None) /\
  maxReconnectAttempts (this (run loggedOut ops env (boot auth))) = 3.
Proof.
  assert (Hstep : forall op w,
    maxReconnectAttempts (this (step loggedOut op env w))
    = maxReconnectAttempts (this w) /\
    (sock (this w) <> None -> sock (this (step loggedOut op env w)) <> None)).
  { clear. intros [| | |u|l|m|k] w; cbn [step].
    - destruct (start_fields env w) as (_ & _ & Hm & Hs).
      cbv zeta in Hm, Hs. auto.
    - rewrite keeps_stop. auto.
    - destruct (logout_fields env w) as (_ & _ & Hm & Hs). cbv zeta in Hm, Hs.
      rewrite Hs. auto.
    - destruct (connection_update_fields loggedOut u env w) as (Hm & Hs & _).
      cbv zeta in Hm, Hs. rewrite Hs. auto.
    - rewrite keeps_on_messages_update. auto.
    - rewrite keeps_on_messages_upsert. auto.
    - destruct (fire_fields k env w) as (_ & _ & Hm & Hs).
      cbv zeta in Hm, Hs. auto. }
  split; [apply Hstep|]. split; [apply Hstep|].
  assert (Hrun : forall ops w, maxReconnectAttempts (this w) = 3 ->
                   maxReconnectAttempts (this (run loggedOut ops env w)) = 3).
  { clear ops. induction ops as [|o ops IH]; intros w0 H0; cbn [run]; auto.
    apply IH. destruct (Hstep o w0) as [-> _]. exact H0. }
  now apply Hrun.
Qed.

#[local] Instance same_supervisor_frame : Frame same_supervisor.
Proof.
  split; unfold same_supervisor; cbn; auto.
  intros w1 w2 w3 (A1 & A2 & A3) (B1 & B2 & B3).
  now rewrite B1, B2, B3.
Qed.

(** X8: the two message handlers and [stop()] leave the supervisor alone:
    whatever the collaborators do, the fields of the bot, the pending timers
    and the credentials folder are the same afterwards.  [stop()] only ends
    the socket, when there is one: it releases no guard, cancels no
    reconnect and removes no credentials. *)
Theorem messages_and_stop_leave_the_supervisor_alone m updates env w :
  same_supervisor w (fst (on_messages_upsert m env w)) /\
  same_supervisor w (fst (on_messages_update updates env w)) /\
  same_supervisor w (fst (stop env w)) /\
  calls (since w (fst (stop env w)))
  = match sock (this w) with Some _ => [ev SockEnd] | None => [] end.
Proof.
  split; [apply (respects_on_messages_upsert same_supervisor)|].
  split; [apply (respects_on_messages_update same_supervisor)|].
  split; [apply (respects_stop same_supervisor)|].
  unfold stop. run_step. destruct (sock (this w)); cbn; trace_norm; reflexivity.
Qed.

(** ** The dispatch chain *)

Lemma hola_inbound :
  inbound (direct_text "Hola") hola_message hola_content
    (lit "5215512345678@s.whatsapp.net").
Proof. repeat split. Qed.

Lemma group_inbound :
  inbound (WA.mkUpsert [group_message]) group_message hola_content
    (lit "120363041234567890@g.us").
Proof. repeat split. Qed.

Lemma TypeError_gets_the_apology what property :
  In what ["undefined"; "null"]%string ->
  In property ["endsWith"; "message"]%string ->
  errorMessage (TypeError what property) = apology.
Proof.
  intros [<-|[<-|[]]] [<-|[<-|[]]]; vm_compute; reflexivity.
Qed.

(** X9: which events are dropped in silence.  When the first message of
    the event has no content, or comes from the bot itself, or has a chat
    address and a text that is empty or blank, the handler ends normally
    and calls no collaborator at all: no log entry, no mode query, no
    reply.  A message of somebody else without chat address is not dropped,
    whatever its text: [from.endsWith] fails before the text is looked at,
    and [handleError] tries to send the apology to the missing address. *)
Theorem malformed_events_are_dropped m msg env w :
  head (WA.messages m) = Some msg ->
  let w' := fst (on_messages_upsert m env w) in
  (WA.message msg = None \/
   WA.fromMe (WA.key msg) = true \/
   (exists content from,
      WA.message msg = Some content /\
      WA.remoteJid (WA.key msg) = val from /\
      (truthy (val (text_of content)) = false \/
       is_empty (trim (text_of content)) = true)) ->
   snd (on_messages_upsert m env w) = Ok tt /\
   calls (since w w') = []) /\
  (WA.message msg <> None ->
   WA.fromMe (WA.key msg) = false ->
   (forall from, WA.remoteJid (WA.key msg) <> val from) ->
   snd (on_messages_upsert m env w) = Ok tt /\
   List.filter is_send (since w w')
   = [ev (SendMessage (WA.remoteJid (WA.key msg)) apology)]).
Proof.
  intros Hhead. unfold on_messages_upsert, dispatch, handleError.
  destruct (WA.messages m) as [|msg0 rest]; [discriminate|].
  cbn in Hhead. injection Hhead as ->. split.
  - intros [Hnone|[Hself|(content & from & Hcontent & Hfrom & Htext)]].
    + rewrite Hnone. run_step. split; [reflexivity|].
      unfold since. now rewrite skipn_all.
    + destruct (WA.message msg); run_step; [rewrite Hself; cbn|].
      all: split; [reflexivity|]; trace_norm; try reflexivity.
      unfold since. now rewrite skipn_all.
    + rewrite Hcontent. run_step. rewrite Hfrom.
      destruct (WA.fromMe (WA.key msg)); cbn.
      * split; [reflexivity|trace_norm; reflexivity].
      * destruct Htext as [-> | Hblank]; cbn.
        -- split; [reflexivity|trace_norm; reflexivity].
        -- rewrite Hblank, orb_true_r. cbn.
           split; [reflexivity|trace_norm; reflexivity].
  - intros Hcontent Hself Hfrom.
    destruct (WA.message msg) as [content|]; [|congruence].
    run_step. rewrite Hself. cbn.
    destruct (WA.remoteJid (WA.key msg)) as [| |from];
      [| |now destruct (Hfrom from)]; cbn.
    all: rewrite TypeError_gets_the_apology by (cbn; tauto).
    all: ask; split; try reflexivity; trace_norm; reflexivity.
Qed.

Lemma malformed_events_are_dropped_witness :
  calls (since (boot true)
           (fst (on_messages_upsert (WA.mkUpsert [own_echo]) calm (boot true))))
  = [].
Proof.
  destruct (malformed_events_are_dropped (WA.mkUpsert [own_echo]) own_echo
              calm (boot true) eq_refl) as [Hdropped _].
  destruct (Hdropped (or_intror (or_introl eq_refl))) as [_ Hnone].
  exact Hnone.
Defined.

(** X10: the audience switch.  For an inbound message of an identity in AI
    mode whose audience (groups or direct chats) has the AI disabled, and a
    logger that does not fail, the collaborators see, after the receipt and
    the two mode queries, the query of the switch of that audience and one
    suppression note; nothing follows: no AI call, no session or mode write,
    no reply. *)
Theorem disabled_audience_is_silent m msg content from env w :
  inbound m msg content from ->
  nominal env logging ->
  (forall h, env _ h (IsHumanMode (sender_of msg from)) = Ok false) ->
  (forall h, env _ h (IsSupportMode (sender_of msg from)) = Ok false) ->
  (forall h, env _ h (if endsWith suffix_group from then IsGroupsAIEnabled
                      else IsIndividualAIEnabled) = Ok false) ->
  let w' := fst (on_messages_upsert m env w) in
  let userId := sender_of msg from in
  let isGroup := endsWith suffix_group from in
  snd (on_messages_upsert m env w) = Ok tt /\
  exists name note,
    calls (since w w')
    = (if isGroup then [ev (GroupMetadata from)] else [])
      ++ [ev (LoggerLog cliente (text_of content) (Some userId) (Some name)
                (Some isGroup) undefined);
          ev (IsHumanMode userId);
          ev (IsSupportMode userId);
          ev (if isGroup then IsGroupsAIEnabled else IsIndividualAIEnabled);
          ev (LoggerLog SYSTEM note None None None undefined)].
Proof.
  intros Hin Hlog Hhuman Hsupport Hflag. enter_dispatch Hin.
  destruct (endsWith suffix_group from) eqn:Hgroup; cbn.
  - ask; repeat answer; units.
    all: split; [reflexivity|].
    all: eexists _, _; trace_norm; reflexivity.
  - repeat answer. units.
    all: split; [reflexivity|].
    all: eexists _, _; trace_norm; reflexivity.
Qed.

Lemma switched_off_logs : nominal switched_off logging.
Proof. intros X c h Hc. destruct c; try discriminate Hc. now exists tt. Qed.

Lemma disabled_audience_is_silent_witness :
  snd (on_messages_upsert (direct_text "Hola") switched_off (boot true)) = Ok tt.
Proof.
  destruct (disabled_audience_is_silent (direct_text "Hola") _ _ _
              switched_off (boot true) hola_inbound switched_off_logs
              (fun _ => eq_refl) (fun _ => eq_refl) (fun _ => eq_refl))
    as [Hok _].
  exact Hok.
Defined.

(** X11: the whole cycle of an answer without marker, when no collaborator
    fails.  In this order: the receipt, the two mode queries, the audience
    switch, the follow-up check and, only when a follow-up is active, its
    cancellation; the user's message is appended to the session; the AI is
    asked once, with the system prompt of the kind of chat at the head of
    the stored history; its answer is appended to the session as it is, and
    sent as it is to the chat the message came from; the reply is logged
    under the message id the send returned and the name of the receipt. *)
Theorem plain_answer_is_sent_and_logged
    m msg content from env w active prompt history response messageId :
  inbound m msg content from ->
  nominal env any_call ->
  ai_allowed env (sender_of msg from) from ->
  (forall h, env _ h (HasActiveFollowUp (sender_of msg from)) = Ok active) ->
  (forall h, env _ h (GetPrompt (endsWith suffix_group from)) = Ok prompt) ->
  (forall h, env _ h (GetMessages (sender_of msg from) from) = Ok history) ->
  (forall h msgs, env _ h (GenerateResponse msgs) = Ok response) ->
  (forall h, env _ h (SendMessage (val from) response) = Ok messageId) ->
  includes marker response = false ->
  let w' := fst (on_messages_upsert m env w) in
  let userId := sender_of msg from in
  let isGroup := endsWith suffix_group from in
  let text := text_of content in
  snd (on_messages_upsert m env w) = Ok tt /\
  exists name session,
    calls (since w w')
    = (if isGroup then [ev (GroupMetadata from)] else [])
      ++ [ev (LoggerLog cliente text (Some userId) (Some name) (Some isGroup)
                undefined);
          ev (IsHumanMode userId);
          ev (IsSupportMode userId);
          ev (if isGroup then IsGroupsAIEnabled else IsIndividualAIEnabled);
          ev (HasActiveFollowUp userId)]
      ++ (if active then [ev (CancelFollowUp userId client_replied)] else [])
      ++ [ev (AddMessage userId user text from);
          ev (GetPrompt isGroup);
          ev (GetMessages userId from);
          ev (GenerateResponse (mkChat system prompt :: history));
          ev (AddMessage userId assistant response from);
          ev (GetSession userId from);
          ev (AnalyzeUserResponse userId text (messages session));
          ev (SendMessage (val from) response);
          ev (LoggerLog bot response (Some userId) (Some name) (Some isGroup)
                messageId)].
Proof.
  intros Hin Hnominal Hallowed Hactive Hprompt Hhistory Hai Hsend Hmarker.
  enter_dispatch Hin.
  destruct Hallowed as (Hhuman & Hsupport & Henabled).
  destruct (endsWith suffix_group from) eqn:Hgroup; cbn.
  all: repeat first [answer_ai | answer | rewrite Hmarker; cbn].
  all: destruct active; cbn;
       repeat first [answer_ai | answer | rewrite Hmarker; cbn]; units.
  all: split; [reflexivity|].
  all: eexists _, _; trace_norm; reflexivity.
Qed.

Lemma calm_allows_Hola :
  ai_allowed calm (sender_of hola_message (lit "5215512345678@s.whatsapp.net"))
    (lit "5215512345678@s.whatsapp.net").
Proof. repeat split. Qed.

Lemma plain_answer_is_sent_and_logged_witness :
  snd (on_messages_upsert (direct_text "Hola") calm (boot true)) = Ok tt.
Proof.
  destruct (plain_answer_is_sent_and_logged (direct_text "Hola") _ _ _
              calm (boot true) false (lit "Eres un asistente de ventas.") []
              (lit "Hola") (val (lit "3EB0A1B2C3"))
              hola_inbound (script_answers _ _ _) calm_allows_Hola
              (fun _ => eq_refl) (fun _ => eq_refl) (fun _ => eq_refl)
              (fun _ _ => eq_refl) (fun _ => eq_refl) eq_refl)
    as [Hok _].
  exact Hok.
Defined.

(** X12: the whole cycle of an answer that carries the marker, when no
    collaborator fails.  After the AI call: the mode of the identity is set
    to ['support'], the mode of the session is updated, the cleaned answer
    (first marker removed, then trimmed) is appended to the session, the
    change is logged, and the cleaned answer is what is sent and what is
    logged as the reply.  Before the AI call no mode is written, nothing is
    sent, and the session receives the user's message only. *)
Theorem marked_answer_hands_off
    m msg content from env w active prompt history response messageId :
  inbound m msg content from ->
  nominal env any_call ->
  ai_allowed env (sender_of msg from) from ->
  (forall h, env _ h (HasActiveFollowUp (sender_of msg from)) = Ok active) ->
  (forall h, env _ h (GetPrompt (endsWith suffix_group from)) = Ok prompt) ->
  (forall h, env _ h (GetMessages (sender_of msg from) from) = Ok history) ->
  (forall h msgs, env _ h (GenerateResponse msgs) = Ok response) ->
  (forall h, env _ h (SendMessage (val from)
                        (trim (replace marker [] response))) = Ok messageId) ->
  includes marker response = true ->
  let w' := fst (on_messages_upsert m env w) in
  let userId := sender_of msg from in
  let isGroup := endsWith suffix_group from in
  let text := text_of content in
  let clean := trim (replace marker [] response) in
  snd (on_messages_upsert m env w) = Ok tt /\
  exists before name session,
    calls (since w w')
    = before
      ++ [ev (GenerateResponse (mkChat system prompt :: history));
          ev (SetMode userId (lit "support"));
          ev (UpdateSessionMode userId from (lit "support"));
          ev (AddMessage userId assistant clean from);
          ev (LoggerLog SYSTEM (support_activated_note userId)
                None None None undefined);
          ev (GetSession userId from);
          ev (AnalyzeUserResponse userId text (messages session));
          ev (SendMessage (val from) clean);
          ev (LoggerLog bot clean (Some userId) (Some name) (Some isGroup)
                messageId)] /\
    count is_mode_write before = 0%nat /\
    count is_send before = 0%nat /\
    List.filter is_session_write before
    = [ev (AddMessage userId user text from)].
Proof.
  intros Hin Hnominal Hallowed Hactive Hprompt Hhistory Hai Hsend Hmarker.
  enter_dispatch Hin.
  destruct Hallowed as (Hhuman & Hsupport & Henabled).
  destruct (endsWith suffix_group from) eqn:Hgroup; cbn.
  all: repeat first [answer_ai | answer | rewrite Hmarker; cbn].
  all: destruct active; cbn;
       repeat first [answer_ai | answer | rewrite Hmarker; cbn]; units.
  all: split; [reflexivity|].
  all: trace_norm.
  all: first
    [ eexists [_;_;_;_;_;_;_;_;_;_], _, _; split; [reflexivity|repeat split]
    | eexists [_;_;_;_;_;_;_;_;_], _, _; split; [reflexivity|repeat split]
    | eexists [_;_;_;_;_;_;_;_], _, _; split; [reflexivity|repeat split] ].
Qed.

Lemma marked_answer_hands_off_witness :
  snd (on_messages_upsert (direct_text "Hola")
         (script false false (Ok answer_with_two_markers)) (boot true)) = Ok tt.
Proof.
  destruct (marked_answer_hands_off (direct_text "Hola") _ _ _
              (script false false (Ok answer_with_two_markers)) (boot true)
              false (lit "Eres un asistente de ventas.") []
              answer_with_two_markers (val (lit "3EB0A1B2C3"))
              hola_inbound (script_answers _ _ _) calm_allows_Hola
              (fun _ => eq_refl) (fun _ => eq_refl) (fun _ => eq_refl)
              (fun _ _ => eq_refl) (fun _ => eq_refl) eq_refl)
    as [Hok _].
  exact Hok.
Defined.

(** ** Every dispatch cycle, whatever the collaborators do *)

(** X13: how the [messages.upsert] handler can end.  For an event that
    carries at least one message it ends normally, or throws the
    [TypeError] that [handleError] raises on [error.message.includes] when
    what it was handed has no [message]; nothing else leaves it.  It ends
    normally whenever what the collaborators throw are [Error]s.  With
    collaborators that reject every call with a value that is no [Error],
    an inbound message makes it throw, and no message is sent.  An event
    with an empty [messages] array makes it throw as well: reading
    [message] of [undefined] sends it to [handleError], which throws on
    [undefined.key] before it calls anybody. *)
Theorem upsert_handler_outcomes m env w :
  match WA.messages m with
  | [] =>
      on_messages_upsert m env w
      = (record (Console (ErrorProcessingMessage
                            (TypeError "undefined" "message"))) w,
         Throw (TypeError "undefined" "key"))
  | _ :: _ =>
      (snd (on_messages_upsert m env w) = Ok tt \/
       snd (on_messages_upsert m env w)
       = Throw (TypeError "undefined" "includes")) /\
      (throws_errors env -> snd (on_messages_upsert m env w) = Ok tt) /\
      (forall msg content from,
         inbound m msg content from ->
         snd (on_messages_upsert m rejecting w)
         = Throw (TypeError "undefined" "includes") /\
         count is_send (since w (fst (on_messages_upsert m rejecting w)))
         = 0%nat)
  end.
Proof.
  destruct (WA.messages m) as [|msg0 rest] eqn:Hm.
  - unfold on_messages_upsert, dispatch, handleError. rewrite Hm. reflexivity.
  - destruct (dispatch_cycle m env w) as [Hends _].
    destruct Hends as [Hends Herrors]; [now rewrite Hm|].
    split; [exact Hends|]. split; [exact Herrors|].
    intros msg content from Hin. enter_dispatch Hin.
    unfold rejecting.
    destruct (endsWith suffix_group from); cbn;
      (split; [reflexivity|trace_norm; reflexivity]).
Qed.

(** X14: what one dispatch cycle can cost, whatever the collaborators do:
    the AI is asked at most once, the mode is written at most once, and at
    most two messages are sent - two only when the reply could not be sent
    or could not be logged, so that the apology follows it; with a logger
    and a socket that do not fail, at most one. *)
Theorem dispatch_cycle_is_bounded m msg env w :
  head (WA.messages m) = Some msg ->
  let seg := since w (fst (on_messages_upsert m env w)) in
  (count is_ai seg <= 1)%nat /\
  (count is_mode_write seg <= 1)%nat /\
  (count is_send seg <= 2)%nat /\
  (nominal env logging -> nominal env sending -> (count is_send seg <= 1)%nat).
Proof.
  intros _. destruct (dispatch_cycle m env w) as [_ Hbounds]. exact Hbounds.
Qed.

Lemma dispatch_cycle_is_bounded_witness :
  (count is_ai
     (since (boot true)
        (fst (on_messages_upsert (direct_text "Hola") calm (boot true))))
   <= 1)%nat.
Proof.
  destruct (dispatch_cycle_is_bounded (direct_text "Hola") hola_message calm
              (boot true) eq_refl) as [Hai _].
  exact Hai.
Defined.

(** X15: the label of a group is looked up at best effort.  For an inbound
    group message and a logger that does not fail, the receipt is logged
    under the group id and: the subject the socket returns; ['Grupo sin
    nombre'] when that subject is empty or missing; ['Grupo'] when the
    look-up throws, in which case the failure is printed and the cycle goes
    on. *)
Theorem group_label_falls_back m msg content from env w :
  inbound m msg content from ->
  endsWith suffix_group from = true ->
  nominal env logging ->
  let w' := fst (on_messages_upsert m env w) in
  let receipt name :=
    [ev (LoggerLog cliente (text_of content)
           (Some (replace suffix_group [] from)) (Some name) (Some true)
           undefined)] in
  (forall subject,
     (forall h, env _ h (GroupMetadata from) = Ok subject) ->
     List.filter (is_log cliente) (since w w')
     = receipt (or_else subject (lit "Grupo sin nombre"))) /\
  (forall error,
     (forall h, env _ h (GroupMetadata from) = Throw error) ->
     List.filter (is_log cliente) (since w w') = receipt (lit "Grupo") /\
     In (ev (Console (NoGroupMetadata error))) (since w w')).
Proof.
  intros Hin Hgroup Hlog. enter_dispatch Hin. rewrite Hgroup. cbn.
  split.
  - intros subject Hmeta. rewrite Hmeta. cbn. answer.
    repeat first [branch | caught | ask]; trace_norm; reflexivity.
  - intros error Hmeta. rewrite Hmeta. cbn. answer.
    repeat first [branch | caught | ask]; (split; [trace_norm; reflexivity|]);
      trace_norm; repeat first [left; reflexivity | right].
Qed.

Lemma no_metadata_logs : nominal no_metadata logging.
Proof. intros X c h Hc. destruct c; try discriminate Hc. now exists tt. Qed.

Lemma group_label_falls_back_witness :
  List.filter (is_log cliente)
    (since (boot true)
       (fst (on_messages_upsert (WA.mkUpsert [group_message]) no_metadata
               (boot true))))
  = [ev (LoggerLog cliente (text_of hola_content)
           (Some (replace suffix_group [] (lit "120363041234567890@g.us")))
           (Some (lit "Grupo")) (Some true) undefined)].
Proof.
  destruct (group_label_falls_back (WA.mkUpsert [group_message]) _ _ _
              no_metadata (boot true) group_inbound eq_refl no_metadata_logs)
    as [_ Hthrows].
  destruct (Hthrows (mkError (lit "item-not-found")) (fun _ => eq_refl))
    as [Hreceipt _].
  exact Hreceipt.
Defined.

(** X16: [handleError], for a message that exists.  Handed an [Error], it
    never throws: it tries exactly one send, to the address of the message
    as it is (also when it is missing), with the text [errorMessage]
    chooses; when the send returns, the error is logged once as an ERROR
    entry under [extractUserId] of that address; when the send throws,
    nothing is logged through the logger and the failure is only printed.
    Handed a value without [message], it prints it and throws the
    [TypeError] of [error.message.includes]: nothing is sent.  Without a
    message it throws before sending anything, whatever it was handed. *)
Theorem handleError_sends_once_or_throws (error : Error) msg env w :
  let from := WA.remoteJid (WA.key msg) in
  let w' := fst (handleError error (Some msg) env w) in
  snd (handleError error (Some msg) env w) = Ok tt /\
  List.filter is_send (since w w')
  = [ev (SendMessage from (errorMessage error))] /\
  (forall messageId,
     (forall h, env _ h (SendMessage from (errorMessage error)) = Ok messageId) ->
     calls (since w w')
     = [ev (SendMessage from (errorMessage error));
        ev (LoggerLog ERROR (message error) (Some (extractUserId from))
              None None undefined)]) /\
  (forall sendError,
     (forall h, env _ h (SendMessage from (errorMessage error)) = Throw sendError) ->
     calls (since w w') = [ev (SendMessage from (errorMessage error))] /\
     In (ev (Console (ErrorSendingErrorMessage sendError))) (since w w')) /\
  handleError a_value (Some msg) env w
  = (record (Console (ErrorProcessingMessage a_value)) w,
     Throw (TypeError "undefined" "includes")) /\
  (forall caught,
     handleError caught None env w
     = (record (Console (ErrorProcessingMessage caught)) w,
        Throw (TypeError "undefined" "key"))).
Proof.
  unfold handleError. run_step.
  repeat match goal with |- _ /\ _ => split end; try reflexivity.
  - ask; reflexivity.
  - ask; trace_norm; reflexivity.
  - intros messageId Hsend. rewrite Hsend. cbn. trace_norm. reflexivity.
  - intros sendError Hsend. rewrite Hsend. cbn.
    split; trace_norm; [reflexivity|].
    repeat first [left; reflexivity | right].
Qed.

(** ** Identities *)

Lemma replace_length (p s : str) :
  (List.length (replace p [] s) <= List.length s
   /\ List.length s <= List.length (replace p [] s) + List.length p)%nat.
Proof.
  unfold replace. destruct (indexOf p s) as [i|]; [|lia].
  rewrite !List.length_app, List.length_firstn, List.length_skipn. cbn. lia.
Qed.

Lemma replace_without (a : N) (p s : str) :
  ~ In a s -> replace (a :: p) [] s = s.
Proof.
  intros Hfresh. rewrite <- (app_nil_r s) at 1.
  rewrite (replace_absent a p s [] Hfresh eq_refl). apply app_nil_r.
Qed.

(** X17: [extractUserId] only ever removes: for every string, the result
    is no longer than the address and at most 24 code units shorter (the
    three suffixes together), and an address without ['@'] comes back
    unchanged. *)
Theorem extractUserId_only_shortens (s : str) :
  (List.length (extractUserId (val s)) <= List.length s)%nat /\
  (List.length s <= List.length (extractUserId (val s)) + 24)%nat /\
  (~ In 64%N s -> extractUserId (val s) = s).
Proof.
  rewrite extractUserId_val.
  pose proof (replace_length suffix_direct s) as Hd.
  pose proof (replace_length suffix_lid (replace suffix_direct [] s)) as Hl.
  pose proof (replace_length suffix_group
                (replace suffix_lid [] (replace suffix_direct [] s))) as Hg.
  change (List.length suffix_direct) with 15%nat in Hd.
  change (List.length suffix_lid) with 4%nat in Hl.
  change (List.length suffix_group) with 5%nat in Hg.
  split; [lia|]. split; [lia|].
  intros Hfresh.
  change suffix_direct with (64%N :: lit "s.whatsapp.net").
  change suffix_lid with (64%N :: lit "lid").
  change suffix_group with (64%N :: lit "g.us").
  rewrite (replace_without 64%N (lit "s.whatsapp.net") s Hfresh).
  rewrite (replace_without 64%N (lit "lid") s Hfresh).
  apply (replace_without 64%N (lit "g.us") s Hfresh).
Qed.

Lemma endsWith_app (p u : str) : endsWith p (u ++ p) = true.
Proof. unfold endsWith. rewrite rev_app_distr. apply startsWith_app. Qed.

(** X18: the identity of a dispatch cycle.  For a chat address made of a
    part without ['@'] and one of the three suffixes, and a message without
    [senderPn], the identity the handler works with - computed one way for
    groups, another way for direct chats - is that part, and it is the
    identity under which [handleError] logs a failure of the cycle. *)
Theorem sender_is_the_local_part msg (u suffix : str) :
  In suffix [suffix_direct; suffix_lid; suffix_group] ->
  ~ In 64%N u ->
  truthy (WA.senderPn (WA.key msg)) = false ->
  sender_of msg (u ++ suffix) = u /\
  sender_of msg (u ++ suffix) = extractUserId (val (u ++ suffix)).
Proof.
  intros Hsuf Hfresh Hpn.
  assert (Hown : forall p, replace (64%N :: p) [] (u ++ 64%N :: p) = u).
  { intros p. rewrite <- (app_nil_r (64%N :: p)) at 2.
    rewrite (replace_after _ _ _ _ Hfresh). apply app_nil_r. }
  assert (Hother : forall p t, indexOf (64%N :: p) t = None ->
                     replace (64%N :: p) [] (u ++ t) = u ++ t).
  { intros p t. apply replace_absent, Hfresh. }
  assert (Hx : extractUserId (val (u ++ suffix)) = u).
  { rewrite extractUserId_val.
    change suffix_direct with (64%N :: lit "s.whatsapp.net") in *.
    change suffix_lid with (64%N :: lit "lid") in *.
    change suffix_group with (64%N :: lit "g.us") in *.
    destruct Hsuf as [<-|[<-|[<-|[]]]].
    - rewrite Hown, (replace_without 64%N (lit "lid") u Hfresh).
      apply (replace_without 64%N (lit "g.us") u Hfresh).
    - rewrite (Hother (lit "s.whatsapp.net") (64%N :: lit "lid") eq_refl).
      rewrite Hown. apply (replace_without 64%N (lit "g.us") u Hfresh).
    - rewrite (Hother (lit "s.whatsapp.net") (64%N :: lit "g.us") eq_refl).
      rewrite (Hother (lit "lid") (64%N :: lit "g.us") eq_refl).
      apply Hown. }
  assert (Hs : sender_of msg (u ++ suffix) = u); [|now rewrite Hs, Hx].
  unfold sender_of, or_ostr. rewrite Hpn.
  destruct Hsuf as [<-|[<-|[<-|[]]]].
  - replace (endsWith suffix_group (u ++ suffix_direct)) with false; [exact Hx|].
    unfold endsWith. rewrite rev_app_distr. reflexivity.
  - replace (endsWith suffix_group (u ++ suffix_lid)) with false; [exact Hx|].
    unfold endsWith. rewrite rev_app_distr. reflexivity.
  - rewrite endsWith_app.
    change suffix_group with (64%N :: lit "g.us"). apply Hown.
Qed.

Lemma sender_is_the_local_part_witness :
  sender_of group_message (lit "120363041234567890" ++ suffix_group)
  = lit "120363041234567890".
Proof.
  assert (Hfresh : ~ In 64%N (lit "120363041234567890")).
  { vm_compute. intros H.
    repeat (destruct H as [H|H]; [discriminate H|]). exact H. }
  destruct (sender_is_the_local_part group_message (lit "120363041234567890")
              suffix_group (or_intror (or_intror (or_introl eq_refl)))
              Hfresh eq_refl) as [Hlocal _].
  exact Hlocal.
Defined.

(** ** The status loop *)

Lemma on_status_update_writes update env w :
  snd (on_status_update update env w) = Ok tt /\
  exists seg,
    trace (fst (on_status_update update env w)) = trace w ++ seg /\
    List.filter is_status_write seg
    = match status_write update with Some e => [e] | None => [] end.
Proof.
  unfold on_status_update, status_write, status_of_code. run_step.
  destruct (code_is (WA.status update) 4); cbn;
    [|destruct (code_is (WA.status update) 2); cbn;
      [|destruct (code_is (WA.status update) 1); cbn]].
  all: destruct (WA.id (WA.update_key update)) as [| |[|c i]]; cbn;
    try ask; (split; [reflexivity|]);
    eexists; rewrite <- ?app_assoc; (split; [reflexivity|reflexivity]).
Qed.

(** X19: the [messages.update] handler treats every update of an event on
    its own.  It never throws, and the status writes it hands to the logger
    are exactly the updates with a known code (1, 2 or 4) and a message id,
    in the order of the event - whether or not the logger failed on an
    earlier one. *)
Theorem every_status_update_is_tried updates env : forall w,
  let w' := fst (on_messages_update updates env w) in
  snd (on_messages_update updates env w) = Ok tt /\
  List.filter is_status_write (since w w') = omap status_write updates.
Proof.
  induction updates as [|u updates IH]; intros w; cbn [on_messages_update].
  - cbn. split; [reflexivity|]. unfold since. now rewrite skipn_all.
  - unfold bind.
    destruct (on_status_update_writes u env w) as (Hok & seg & Htrace & Hseg).
    destruct (on_status_update u env w) as [w1 r]. cbn in Hok, Htrace.
    subst r. destruct (IH w1) as [Hok1 Hrest]. cbv zeta in Hrest.
    split; [exact Hok1|].
    rewrite (since_extends w w1).
    + rewrite List.filter_app, Hrest. unfold since at 1.
      rewrite Htrace, skipn_prefix, Hseg.
      change (omap status_write (u :: updates))
        with (match status_write u with
              | Some e => e :: omap status_write updates
              | None => omap status_write updates
              end).
      destruct (status_write u); reflexivity.
    + now exists seg.
    + apply (respects_on_messages_update extends updates env w1).
Qed.

(** ** The statistics of the web server *)

Module WebServerFacts.
Import WebServer.

Section Facts.

Context {Timestamp : Type}.
Variable getHours : Timestamp -> option Z.
Variable round_quotient : Z -> Z -> Z.

Lemma str_eqb_eq (a b : str) : str_eqb a b = true -> a = b.
Proof.
  revert b. induction a as [|x a IH]; intros [|y b] H; cbn in H;
    try discriminate; [reflexivity|].
  apply andb_true_iff in H as [Hx Hab].
  apply N.eqb_eq in Hx. f_equal; auto.
Qed.

Lemma user_is_not_bot (v : ostr) :
  strict_eq v "USER" = true -> strict_eq v "BOT" = false.
Proof.
  destruct v as [| |s]; cbn; try discriminate.
  intros H. apply str_eqb_eq in H. subst s. reflexivity.
Qed.

Lemma entries_count_hour (hour : option Z) (m : gmap (option Z) Z) :
  entries (count_hour hour m) = entries m + 1.
Proof.
  unfold entries, count_hour.
  assert (Hcomm : forall (m' : gmap (option Z) Z) (j1 j2 : option Z)
                    (z1 z2 y : Z),
            j1 <> j2 -> m' !! j1 = Some z1 -> m' !! j2 = Some z2 ->
            z1 + (z2 + y) = z2 + (z1 + y)) by (intros; lia).
  destruct (m !! hour) as [n|] eqn:Hn; cbn [default].
  - rewrite <- (insert_delete_eq m hour (n + 1)).
    rewrite <- (insert_delete_id m hour n Hn) at 2.
    rewrite !map_fold_insert_L; try apply lookup_delete_eq; try apply Hcomm.
    lia.
  - rewrite map_fold_insert_L; [lia|apply Hcomm|exact Hn].
Qed.

Lemma visit_tallied n t log t' :
  tallied n t -> visit getHours t log = Ok t' -> tallied (n + 1) t'.
Proof.
  intros (H1 & H2 & H3 & H4 & H5 & H6 & H7 & H8 & H9) Hvisit.
  unfold visit, classify in Hvisit.
  destruct (strict_eq (type log) "USER");
    [|destruct (strict_eq (type log) "BOT");
      [destruct (message log); try discriminate
      |destruct (strict_eq (type log) "ERROR")]];
    injection Hvisit as <-; unfold tallied; cbn;
    rewrite entries_count_hour; repeat split; try lia.
  destruct (userId log) as [| |[|c u]]; try lia.
  rewrite size_union_alt, size_singleton.
  assert (size (seen t ∖ {[c :: u]}) <= size (seen t))%nat
    by (apply subseteq_size, subseteq_difference_l; reflexivity).
  lia.
Qed.

Lemma forEach_tallied logs : forall n t t',
  tallied n t -> forEach getHours logs t = Ok t' ->
  tallied (n + Z.of_nat (List.length logs)) t'.
Proof.
  induction logs as [|log logs IH]; intros n t t' Ht Hloop; cbn in Hloop.
  - injection Hloop as <-. cbn. now rewrite Z.add_0_r.
  - destruct (visit getHours t log) as [t1|e] eqn:Hvisit; [|discriminate].
    pose proof (IH (n + 1) t1 t' (visit_tallied n t log t1 Ht Hvisit) Hloop).
    cbn [List.length]. now replace (n + Z.of_nat (S (List.length logs)))
      with (n + 1 + Z.of_nat (List.length logs)) by lia.
Qed.

(** X20: the numbers [calculateStats] returns fit together, for every array
    of entries whose [message] is a string or absent, every clock and every
    rounding: the total is the user messages plus the bot messages; the
    unique users are at most the user messages; total and errors together
    are at most the number of entries; the counts per hour add up to the
    number of entries, whatever their type; and without a bot message the
    average length is 0. *)
Theorem calculateStats_is_consistent (logs : list Log) stats :
  snd (calculateStats getHours round_quotient (Some logs)) = Ok stats ->
  totalMessages stats = userMessages stats + botMessages stats /\
  0 <= userMessages stats /\ 0 <= botMessages stats /\ 0 <= errors stats /\
  0 <= uniqueUsers stats <= userMessages stats /\
  totalMessages stats + errors stats <= Z.of_nat (List.length logs) /\
  entries (messagesByHour stats) = Z.of_nat (List.length logs) /\
  (botMessages stats = 0 -> averageResponseLength stats = 0).
Proof.
  cbn. destruct (forEach getHours logs start_tally) as [t|e] eqn:Hloop;
    [|discriminate].
  intros [= <-]. cbn.
  assert (H0 : tallied 0 start_tally).
  { unfold tallied, start_tally, entries. cbn.
    rewrite map_fold_empty, size_empty. repeat split; lia. }
  destruct (forEach_tallied logs 0 _ t H0 Hloop)
    as (H1 & H2 & H3 & H4 & H5 & H6 & H7 & H8 & H9).
  repeat split; try lia.
  intros Hbots. rewrite H8, Hbots. reflexivity.
Qed.

Lemma forEach_raises logs : forall t,
  if existsb bot_without_message logs
  then exists e, forEach getHours logs t = Throw e
  else exists t', forEach getHours logs t = Ok t'.
Proof.
  induction logs as [|log logs IH]; intros t; cbn [existsb forEach].
  - now exists t.
  - unfold visit, classify, bot_without_message.
    destruct (strict_eq (type log) "USER") eqn:Huser.
    + rewrite (user_is_not_bot _ Huser). cbn. apply IH.
    + destruct (strict_eq (type log) "BOT"); cbn.
      * destruct (message log); cbn; eauto. apply IH.
      * destruct (strict_eq (type log) "ERROR"); apply IH.
Qed.

(** X21: when [calculateStats] fails.  Over an array of entries whose
    [message] is a string or absent it throws exactly when some entry of
    type ['BOT'] has no message (reading [length] of it fails), and returns
    statistics otherwise; an argument that is not an array gives one
    warning and statistics that are all zero, never an exception. *)
Theorem calculateStats_raises_on_bot_without_message (logs : list Log) :
  (existsb bot_without_message logs = true ->
   exists e, snd (calculateStats getHours round_quotient (Some logs)) = Throw e) /\
  (existsb bot_without_message logs = false ->
   exists stats,
     snd (calculateStats getHours round_quotient (Some logs)) = Ok stats) /\
  (exists stats,
     calculateStats getHours round_quotient None = ([LogsNotAnArray], Ok stats)
     /\ totalMessages stats = 0 /\ userMessages stats = 0
     /\ botMessages stats = 0 /\ errors stats = 0 /\ uniqueUsers stats = 0
     /\ messagesByHour stats = ∅ /\ averageResponseLength stats = 0).
Proof.
  pose proof (forEach_raises logs start_tally) as H. cbn.
  split; [|split].
  - intros Hex. rewrite Hex in H. destruct H as [e ->]. eauto.
  - intros Hex. rewrite Hex in H. destruct H as [t ->]. eauto.
  - eexists. repeat split.
Qed.

End Facts.

Lemma calculateStats_is_consistent_witness :
  exists stats,
    snd (calculateStats sample_hours sample_round (Some sample_logs)) = Ok stats
    /\ entries (messagesByHour stats) = 3.
Proof.
  assert (H : exists stats,
            snd (calculateStats sample_hours sample_round (Some sample_logs))
            = Ok stats) by (vm_compute; eauto).
  destruct H as [stats H]. exists stats. split; [exact H|].
  destruct (calculateStats_is_consistent sample_hours sample_round
              sample_logs stats H) as (_ & _ & _ & _ & _ & _ & Hhours & _).
  exact Hhours.
Defined.

End WebServerFacts.
